(** * Patch-Starter-Script: metadata extraction and patch-definition synthesis

    A shallow embedding of [patchstarter.py] and [title_manager.py].

    Python values that travel through the program (property-list values,
    the JSON documents) are one inductive type [pyval]; dictionaries that
    the program builds are association lists in insertion order, the
    parsed manifest is a finite map.  The file system, the clock and the
    property-list parser are fields of a [world]; a run is a value of
    [prog A]: the list of observable events it performed together with the
    way it ended (returned, [SystemExit], or an exception that nobody
    caught). *)

From Stdlib Require Import ZArith NArith Ascii String List Lia.
From Stdlib Require Import Floats.SpecFloat.
From stdpp Require Import base strings list gmap pretty.
Import ListNotations.

Local Open Scope string_scope.
Local Open Scope list_scope.

Set Warnings "-register-all".

(** ** Python [str] operations used by the scripts *)

Module PyStr.

Definition space : ascii := Ascii.ascii_of_nat 32.
Definition hyphen : ascii := Ascii.ascii_of_nat 45.
Definition slash : ascii := Ascii.ascii_of_nat 47.
Definition backslash : ascii := Ascii.ascii_of_nat 92.
Definition squote : ascii := Ascii.ascii_of_nat 39.
Definition dquote : ascii := Ascii.ascii_of_nat 34.
Definition nul : ascii := Ascii.ascii_of_nat 0.

Definition str1 (c : ascii) : string := String c EmptyString.

(** Truthiness of a [str]: every string but the empty one. *)
Definition truthy (s : string) : bool :=
  match s with EmptyString => false | String _ _ => true end.

(** [c in s] for a single character. *)
Fixpoint has_char (c : ascii) (s : string) : bool :=
  match s with
  | EmptyString => false
  | String d rest => Ascii.eqb c d || has_char c rest
  end.


Definition startswith (pre s : string) : bool := String.prefix pre s.

Fixpoint endswith (suf s : string) : bool :=
  String.eqb suf s ||
  match s with
  | EmptyString => false
  | String _ rest => endswith suf rest
  end.

(** [s.replace(old, new)] for a non-empty [old]: scan left to right; at a
    match emit [new] and skip the rest of the match ([skip] counts the
    characters of a match still to be dropped). *)
Fixpoint replace_from (old new : string) (skip : nat) (s : string) : string :=
  match s with
  | EmptyString => EmptyString
  | String c rest =>
      match skip with
      | S k => replace_from old new k rest
      | O =>
          if String.prefix old s
          then new +:+ replace_from old new (String.length old - 1) rest
          else String c (replace_from old new 0 rest)
      end
  end.

(** With an empty [old] Python puts [new] before every character and at
    the end. *)
Fixpoint interleave (new s : string) : string :=
  match s with
  | EmptyString => new
  | String c rest => new +:+ String c (interleave new rest)
  end.

Definition replace (old new s : string) : string :=
  match old with
  | EmptyString => interleave new s
  | String _ _ => replace_from old new 0 s
  end.

(** [s.lower()], exact on ASCII text; bytes outside [A-Z] are kept. *)
Definition lower_char (c : ascii) : ascii :=
  let n := Ascii.nat_of_ascii c in
  if (65 <=? n)%nat && (n <=? 90)%nat then Ascii.ascii_of_nat (n + 32) else c.

Fixpoint lower (s : string) : string :=
  match s with
  | EmptyString => EmptyString
  | String c rest => String (lower_char c) (lower rest)
  end.

(** [s.rstrip(chars)]: drop trailing characters that occur in [chars]. *)
Fixpoint rstrip (chars s : string) : string :=
  match s with
  | EmptyString => EmptyString
  | String c rest =>
      match rstrip chars rest with
      | EmptyString => if has_char c chars then EmptyString else str1 c
      | String d r => String c (String d r)
      end
  end.

(** [repr(s)] as CPython prints a [str]: single quotes unless the text
    has a single quote and no double quote; backslash and the chosen
    quote escaped; control characters escaped.  Bytes from 128 up are
    kept (they are the UTF-8 encoding of printable text). *)
Definition hex_digit (n : nat) : ascii :=
  match String.get n "0123456789abcdef" with
  | Some c => c
  | None => Ascii.ascii_of_nat 48
  end.

Definition repr_char (quote c : ascii) : string :=
  let n := Ascii.nat_of_ascii c in
  if Ascii.eqb c quote || Ascii.eqb c backslash then String backslash (str1 c)
  else if (n =? 9)%nat then String backslash "t"
  else if (n =? 10)%nat then String backslash "n"
  else if (n =? 13)%nat then String backslash "r"
  else if (n <? 32)%nat || (n =? 127)%nat
       then String backslash (String "x" (String (hex_digit (n / 16)) (str1 (hex_digit (n mod 16)))))
  else str1 c.

Fixpoint repr_body (quote : ascii) (s : string) : string :=
  match s with
  | EmptyString => EmptyString
  | String c rest => repr_char quote c +:+ repr_body quote rest
  end.

Definition repr (s : string) : string :=
  let quote := if has_char squote s && negb (has_char dquote s) then dquote else squote in
  String quote (repr_body quote s +:+ str1 quote).

(** ["%0wd" % n] for a natural number. *)
Fixpoint zeros (k : nat) : string :=
  match k with O => EmptyString | S k' => String "0" (zeros k') end.

Definition zero_pad (width : nat) (n : N) : string :=
  let s := pretty n in
  zeros (width - String.length s) +:+ s.

End PyStr.

(** ** [os.path] (POSIX flavour) *)

Module OsPath.

(** The text after the last slash; [None] when there is no slash. *)
Fixpoint after_last_slash (p : string) : option string :=
  match p with
  | EmptyString => None
  | String c rest =>
      match after_last_slash rest with
      | Some t => Some t
      | None => if Ascii.eqb c PyStr.slash then Some rest else None
      end
  end.

Definition basename (p : string) : string :=
  match after_last_slash p with Some t => t | None => p end.

Definition join_step (path b : string) : string :=
  if PyStr.startswith "/" b then b
  else if negb (PyStr.truthy path) || PyStr.endswith "/" path then path +:+ b
  else path +:+ "/" +:+ b.

Definition join (a : string) (ps : list string) : string :=
  fold_left join_step ps a.

End OsPath.

(** ** [base64.b64encode] and [base64.b64decode] (RFC 4648) *)

Module Base64.

Definition alphabet : string :=
  "ABCDEFGHIJKLMNOPQRSTUVWXYZabcdefghijklmnopqrstuvwxyz0123456789+/".

Definition pad : ascii := Ascii.ascii_of_nat 61.

(** The character of a six-bit group. *)
Definition enc6 (n : N) : ascii :=
  match String.get (N.to_nat n) alphabet with
  | Some c => c
  | None => pad
  end.



(** Three bytes give four groups; one or two trailing bytes give two or
    three groups and padding. *)
Fixpoint b64encode (bs : list Byte.byte) : string :=
  match bs with
  | [] => EmptyString
  | [a] =>
      let a := Byte.to_N a in
      String (enc6 (a / 4))
     (String (enc6 (a mod 4 * 16))
     (String pad (String pad EmptyString)))
  | [a; b] =>
      let a := Byte.to_N a in
      let b := Byte.to_N b in
      String (enc6 (a / 4))
     (String (enc6 (a mod 4 * 16 + b / 16))
     (String (enc6 (b mod 16 * 4))
     (String pad EmptyString)))
  | a :: b :: c :: rest =>
      let a := Byte.to_N a in
      let b := Byte.to_N b in
      let c := Byte.to_N c in
      String (enc6 (a / 4))
     (String (enc6 (a mod 4 * 16 + b / 16))
     (String (enc6 (b mod 16 * 4 + c / 64))
     (String (enc6 (c mod 64)) (b64encode rest))))
  end%N.


End Base64.

(** ** Python values, exceptions and the outside world *)

(** An aware UTC [datetime], as [datetime.now(timezone.utc)] and
    [datetime.fromtimestamp(t, timezone.utc)] build it. *)
Record datetime : Type := mk_datetime {
  dt_year : N; dt_month : N; dt_day : N;
  dt_hour : N; dt_minute : N; dt_second : N;
  dt_microsecond : N
}.

(** [d.isoformat()] for an aware value whose offset is zero: date, [T],
    time, the microseconds when there are any, and the offset. *)
Definition isoformat (d : datetime) : string :=
  PyStr.zero_pad 4 (dt_year d) +:+ "-" +:+ PyStr.zero_pad 2 (dt_month d) +:+ "-"
  +:+ PyStr.zero_pad 2 (dt_day d) +:+ "T"
  +:+ PyStr.zero_pad 2 (dt_hour d) +:+ ":" +:+ PyStr.zero_pad 2 (dt_minute d) +:+ ":"
  +:+ PyStr.zero_pad 2 (dt_second d)
  +:+ (if (dt_microsecond d =? 0)%N then EmptyString
       else "." +:+ PyStr.zero_pad 6 (dt_microsecond d))
  +:+ "+00:00".

(** The values [plistlib] can hand over and the values the scripts put
    into their documents.  A [dict] built by the scripts keeps its keys in
    insertion order. *)
Inductive pyval : Type :=
| VNone
| VBool (b : bool)
| VInt (z : Z)
| VFloat (f : spec_float)
| VStr (s : string)
| VBytes (bs : list Byte.byte)
| VDate (d : datetime)
| VUid (n : Z)
| VList (l : list pyval)
| VDict (d : list (string * pyval)).

(** [d[k]] on a document: the first entry with that key. *)
Fixpoint dict_get (k : string) (d : list (string * pyval)) : option pyval :=
  match d with
  | [] => None
  | (k', v) :: rest => if String.eqb k k' then Some v else dict_get k rest
  end.

Definition field (k : string) (v : pyval) : option pyval :=
  match v with VDict d => dict_get k d | _ => None end.

Definition item (i : nat) (v : pyval) : option pyval :=
  match v with VList l => l !! i | _ => None end.

Definition type_name (v : pyval) : string :=
  match v with
  | VNone => "NoneType"
  | VBool _ => "bool"
  | VInt _ => "int"
  | VFloat _ => "float"
  | VStr _ => "str"
  | VBytes _ => "bytes"
  | VDate _ => "datetime.datetime"
  | VUid _ => "UID"
  | VList _ => "list"
  | VDict _ => "dict"
  end.

(** What [json] cannot serialise: [bytes], [datetime] and [UID] values, at
    any depth.  The encoder walks the document in order and stops at the
    first such value. *)
Fixpoint first_unserializable (v : pyval) : option pyval :=
  match v with
  | VBytes _ | VDate _ | VUid _ => Some v
  | VList l =>
      (fix in_list (l : list pyval) : option pyval :=
         match l with
         | [] => None
         | x :: rest =>
             match first_unserializable x with
             | Some bad => Some bad
             | None => in_list rest
             end
         end) l
  | VDict d =>
      (fix in_dict (d : list (string * pyval)) : option pyval :=
         match d with
         | [] => None
         | (_, x) :: rest =>
             match first_unserializable x with
             | Some bad => Some bad
             | None => in_dict rest
             end
         end) d
  | VNone | VBool _ | VInt _ | VFloat _ | VStr _ => None
  end.

(** The name [json] prints for the class of such a value. *)
Definition class_name (v : pyval) : string :=
  match v with
  | VDate _ => "datetime"
  | _ => type_name v
  end.

Inductive exc_class : Type :=
| OSError            (* alias IOError, with its subclasses *)
| ValueError
| TypeError
| AttributeError
| RuntimeError
| InvalidFileException
| OtherException (name : string).

(** An exception object: its class and [str(e)]. *)
Record py_exception : Type := PyExc {
  exc_class_of : exc_class;
  exc_str : string
}.

Definition is_oserror (e : py_exception) : bool :=
  match exc_class_of e with OSError => true | _ => false end.

(** [str(e)] of an [OSError] built from an errno: the file name is part of
    the text only when the failing call knew it. *)
Definition os_error (errno : Z) (strerror : string) (filename : option string)
  : py_exception :=
  PyExc OSError
    ("[Errno " +:+ pretty errno +:+ "] " +:+ strerror +:+
     match filename with
     | Some f => ": " +:+ PyStr.repr f
     | None => EmptyString
     end).

(** The [TypeError] of [json.dump] and [json.dumps] on a value they cannot
    encode. *)
Definition not_serializable (bad : pyval) : py_exception :=
  PyExc TypeError ("Object of type " +:+ class_name bad +:+ " is not JSON serializable").

(** What a path holds for [open(path, "rb")] followed by a read. *)
Inductive file_state : Type :=
| FileBytes (bs : list Byte.byte)          (* opens, and reads to the end *)
| OpenFails (errno : Z) (strerror : string) (* [open] raises; the error names the file *)
| ReadFails (errno : Z) (strerror : string). (* opens, then reading raises *)

Record world : Type := mk_world {
  (** the files *)
  fs : string → file_state;
  (** [plistlib.load] on the bytes of a file: the parsed top-level value,
      or the exception of the parser *)
  plist_parse : list Byte.byte → pyval + py_exception;
  (** [datetime.now(timezone.utc)] *)
  now_utc : datetime;
  (** [datetime.fromtimestamp(os.path.getmtime(p), timezone.utc)] *)
  mtime_utc : string → datetime + py_exception;
  (** [glob.glob(pattern)] *)
  glob : string → list string
}.

(** What a run does that can be seen from outside. *)
Inductive event : Type :=
| EvOpenRead (path : string)                  (* [open(path, "rb")] *)
| EvMakedirs (dir : string)                   (* [os.makedirs(dir, exist_ok=True)] *)
| EvOpenWrite (path : string)                 (* [open(path, "w")] *)
| EvJsonDump (path : string) (doc : pyval)    (* the whole document written *)
| EvJsonDumpAborted (path : string) (doc : pyval) (* the encoder stopped part-way *)
| EvPrintJson (doc : pyval)                   (* the JSON text of the document printed *)
| EvPrintRepr (doc : pyval)                   (* the dictionary itself printed *)
| EvPrint (line : string).

Inductive outcome (A : Type) : Type :=
| Returned (a : A)
| SystemExit (msg : string)
| Raised (e : py_exception).

Arguments Returned {A} a.
Arguments SystemExit {A} msg.
Arguments Raised {A} e.

(** The exit status of the interpreter: zero after a normal end, one after
    [SystemExit] with a message and after an uncaught exception. *)
Definition exit_status {A} (r : outcome A) : Z :=
  match r with
  | Returned _ => 0
  | SystemExit _ => 1
  | Raised _ => 1
  end.

(** A computation: the events so far and how it ended. *)
Definition prog (A : Type) : Type := list event * outcome A.

Definition ret {A} (a : A) : prog A := ([], Returned a).
Definition emit (e : event) : prog unit := ([e], Returned tt).
Definition sys_exit {A} (msg : string) : prog A := ([], SystemExit msg).
Definition raise {A} (e : py_exception) : prog A := ([], Raised e).

Definition bind {A B} (m : prog A) (k : A → prog B) : prog B :=
  match m with
  | (t, Returned a) => let '(t', r) := k a in (t ++ t', r)
  | (t, SystemExit msg) => (t, SystemExit msg)
  | (t, Raised e) => (t, Raised e)
  end.

(** [try: m  except P as e: h(e)]: an exception that [P] accepts is handed
    to [h]; [SystemExit] is no [Exception] and passes. *)
Definition try_except {A} (m : prog A) (catches : py_exception → bool)
    (h : py_exception → prog A) : prog A :=
  match m with
  | (t, Raised e) => if catches e then let '(t', r) := h e in (t ++ t', r) else (t, Raised e)
  | _ => m
  end.

#[global] Instance prog_ret : MRet prog := @ret.
#[global] Instance prog_bind : MBind prog := fun A B k m => bind m k.

Definition trace {A} (m : prog A) : list event := fst m.
Definition result {A} (m : prog A) : outcome A := snd m.

(** The documents a run gave out, whole or in part, in order. *)
Definition emitted_docs (t : list event) : list pyval :=
  omap (fun e => match e with
                 | EvJsonDump _ d | EvJsonDumpAborted _ d
                 | EvPrintJson d | EvPrintRepr d => Some d
                 | _ => None
                 end) t.

(** [with open(path, "rb") as f: f.read()].  A path with a NUL character
    is refused by [open] with a [ValueError]. *)
Definition read_binary (w : world) (path : string) : prog (list Byte.byte) :=
  if PyStr.has_char PyStr.nul path then raise (PyExc ValueError "embedded null byte")
  else
    emit (EvOpenRead path);;
    match fs w path with
    | FileBytes bs => ret bs
    | OpenFails n msg => raise (os_error n msg (Some path))
    | ReadFails n msg => raise (os_error n msg None)
    end.

(** [plistlib.load] returns the top-level value of the file: for a bundle
    manifest a [dict], which the scripts only read by key (a [VDict] lists
    each key once). *)
Inductive plist_root : Type :=
| RootDict (m : gmap string pyval)
| RootOther (v : pyval).

Definition parse_plist (w : world) (bs : list Byte.byte) : prog plist_root :=
  match plist_parse w bs with
  | inl (VDict d) => ret (RootDict (list_to_map d))
  | inl v => ret (RootOther v)
  | inr e => raise e
  end.

(** [info.get(key, default)]. *)
Definition plist_get (info : plist_root) (key : string) (default : pyval) : prog pyval :=
  match info with
  | RootDict m => ret (match m !! key with Some v => v | None => default end)
  | RootOther v =>
      raise (PyExc AttributeError
               ("'" +:+ type_name v +:+ "' object has no attribute 'get'"))
  end.

(** [v.replace(old, new)] with two [str] arguments, on whatever [v] is.
    Only a [str] has such a method that accepts them; the call hands back
    the receiver as the [str] it then is, with the result. *)
Definition call_replace (v : pyval) (old new : string) : prog (string * string) :=
  match v with
  | VStr s => ret (s, PyStr.replace old new s)
  | VBytes _ => raise (PyExc TypeError "a bytes-like object is required, not 'str'")
  | VDate _ => raise (PyExc TypeError "'str' object cannot be interpreted as an integer")
  | _ => raise (PyExc AttributeError
                  ("'" +:+ type_name v +:+ "' object has no attribute 'replace'"))
  end.

(** [a or b] where [a] is a [str] or [None]: [b] is evaluated only when
    [a] is falsy, that is [None] or the empty string. *)
Definition py_or (a : option string) (b : prog pyval) : prog pyval :=
  match a with
  | Some s => if PyStr.truthy s then ret (VStr s) else b
  | None => b
  end.

Definition str_truthy (o : option string) : bool :=
  match o with
  | Some s => PyStr.truthy s
  | None => false
  end.

(** The dictionary both scripts build from the manifest.  Its name and id
    are [str] (the id was computed from the name with [str.replace]); the
    other manifest fields hold whatever the manifest declared. *)
Record app_info : Type := mk_app_info {
  app_name : string;
  app_id : string;
  app_bundle_id : pyval;
  app_version : pyval;
  app_min_os : pyval;
  app_last_modified : string;
  app_timestamp : string
}.

Definition timestamp_of (w : world) (p : string) : prog string :=
  match mtime_utc w p with
  | inl d => ret (isoformat d +:+ "Z")
  | inr e => raise e
  end.

(** ** patchstarter.py *)

Module Patchstarter.

(** The namespace [parse_arguments] returns: [--publisher] and [--name]
    default to the empty string, the other options to [None]. *)
Record args : Type := mk_args {
  path : string;
  output : option string;
  publisher : string;
  name : string;
  extension_attribute : option (list string);
  arg_app_version : option string;   (* [args.app_version] *)
  min_sys_version : option string;
  patch_only : bool
}.

Definition load_plist (w : world) (plist_path : string) : prog plist_root :=
  try_except
    (bs ← read_binary w plist_path; parse_plist w bs)
    (fun _ => true)
    (fun e => sys_exit ("Error reading plist: " +:+ exc_str e)).

Definition get_app_info (w : world) (a : args) : prog app_info :=
  let plist_path := OsPath.join (path a) ["Contents"; "Info.plist"] in
  info ← load_plist w plist_path;
  name_v ← py_or (Some (name a))
             (plist_get info "CFBundleName"
                (VStr (PyStr.replace ".app" EmptyString (OsPath.basename (path a)))));
  '(nm, id) ← call_replace name_v " " EmptyString;
  bundle_id ← plist_get info "CFBundleIdentifier" (VStr "unknown.bundle.id");
  version ← py_or (arg_app_version a)
              (plist_get info "CFBundleShortVersionString" (VStr "0.0.0"));
  min_os ← py_or (min_sys_version a)
             (plist_get info "LSMinimumSystemVersion" (VStr "10.9"));
  let last_modified := isoformat (now_utc w) +:+ "Z" in
  timestamp ← timestamp_of w (path a);
  ret {| app_name := nm;
         app_id := id;
         app_bundle_id := bundle_id;
         app_version := version;
         app_min_os := min_os;
         app_last_modified := last_modified;
         app_timestamp := timestamp |}.

Definition create_patch (info : app_info) : pyval :=
  VDict
    [ ("version", app_version info);
      ("releaseDate", VStr (app_timestamp info));
      ("standalone", VBool true);
      ("minimumOperatingSystem", app_min_os info);
      ("reboot", VBool false);
      ("killApps",
        VList [ VDict [ ("bundleId", app_bundle_id info);
                        ("appName", VStr (app_name info)) ] ]);
      ("components",
        VList [ VDict
          [ ("name", VStr (app_name info));
            ("version", app_version info);
            ("criteria",
              VList [ VDict [ ("name", VStr "Application Bundle ID");
                              ("operator", VStr "is");
                              ("value", app_bundle_id info);
                              ("type", VStr "recon") ];
                      VDict [ ("name", VStr "Application Version");
                              ("operator", VStr "is");
                              ("value", app_version info);
                              ("type", VStr "recon") ] ]) ] ]);
      ("capabilities",
        VList [ VDict [ ("name", VStr "Operating System Version");
                        ("operator", VStr "greater than or equal");
                        ("value", app_min_os info);
                        ("type", VStr "recon") ] ]);
      ("dependencies", VList []) ].

(** One pass of the loop over [args.extension_attribute]: read the file,
    encode it, build the entry; an [IOError] ends the run. *)
Definition extension_entry (w : world) (info : app_info) (ext_path : string)
  : prog pyval :=
  try_except
    (raw ← read_binary w ext_path;
     let ext_content := Base64.b64encode raw in
     ret (VDict [ ("key", VStr (PyStr.replace " " "-" (PyStr.lower (app_name info))));
                  ("value", VStr ext_content);
                  ("displayName", VStr (app_name info)) ]))
    is_oserror
    (fun e => sys_exit ("Error reading extension attribute: " +:+ exc_str e)).

(** The loop: [attrs] is [definition["extensionAttributes"]] so far. *)
Fixpoint extension_loop (w : world) (info : app_info) (attrs : list pyval)
    (paths : list string) : prog (list pyval) :=
  match paths with
  | [] => ret attrs
  | ext_path :: rest =>
      entry ← extension_entry w info ext_path;
      extension_loop w info (attrs ++ [entry]) rest
  end.

(** The dictionary [definition], with [attrs] the list under its
    ["extensionAttributes"] key. *)
Definition definition (info : app_info) (patch : pyval) (a : args)
    (attrs : list pyval) : pyval :=
  VDict
    [ ("id", VStr (app_id info));
      ("name", VStr (app_name info));
      ("publisher",
        VStr (if PyStr.truthy (publisher a) then publisher a else app_name info));
      ("appName", VStr (app_name info +:+ ".app"));
      ("bundleId", app_bundle_id info);
      ("lastModified", VStr (app_last_modified info));
      ("currentVersion", app_version info);
      ("requirements",
        VList [ VDict [ ("name", VStr "Application Bundle ID");
                        ("operator", VStr "is");
                        ("value", app_bundle_id info);
                        ("type", VStr "recon") ] ]);
      ("patches", VList [patch]);
      ("extensionAttributes", VList attrs) ].

(** The list starts empty; it is filled only when
    [args.extension_attribute] is truthy, a list that is not empty. *)
Definition create_patch_definition (w : world) (info : app_info) (patch : pyval)
    (a : args) : prog pyval :=
  match extension_attribute a with
  | Some (p :: ps) =>
      attrs ← extension_loop w info [] (p :: ps);
      ret (definition info patch a attrs)
  | Some [] | None => ret (definition info patch a [])
  end.

(** [json.dump] raises on a value it cannot encode when it has written
    the text before it; [json.dumps] raises before anything is printed.
    Failures of the operating system while writing are outside this
    model. *)
Definition save_output (doc : pyval) (id : string) (a : args) : prog unit :=
  let filename := if patch_only a then id +:+ "-patch.json" else id +:+ ".json" in
  if str_truthy (output a) then
    let dir := default EmptyString (output a) in
    emit (EvMakedirs dir);;
    let file_path := OsPath.join dir [filename] in
    emit (EvOpenWrite file_path);;
    match first_unserializable doc with
    | None => emit (EvJsonDump file_path doc)
    | Some bad => emit (EvJsonDumpAborted file_path doc);; raise (not_serializable bad)
    end;;
    emit (EvPrint ("Saved patch definition to " +:+ file_path))
  else
    match first_unserializable doc with
    | None => emit (EvPrintJson doc)
    | Some bad => raise (not_serializable bad)
    end.

Definition main (w : world) (a : args) : prog unit :=
  info ← get_app_info w a;
  let patch := create_patch info in
  doc ← (if patch_only a then ret patch
         else create_patch_definition w info patch a);
  save_output doc (app_id info) a.

End Patchstarter.

(** ** title_manager.py *)

Module TitleManager.

(** The attributes [__init__] sets. *)
Record t : Type := mk_t {
  self_app_name : string;
  base_path : string;
  patch_only : bool;
  app_path : string
}.

Definition find_application (w : world) (self_app_name base_path arg_app_name : string)
  : prog string :=
  let search_pattern := OsPath.join base_path [self_app_name] in
  match glob w search_pattern with
  | [] => raise (PyExc ValueError
                   ("Application '" +:+ arg_app_name +:+ "' not found in "
                    +:+ base_path +:+ "."))
  | first :: _ => ret first
  end.

Definition init (w : world) (arg_app_name base_path : string) (patch_only : bool)
  : prog t :=
  let self_app_name :=
    if PyStr.endswith ".app" arg_app_name then PyStr.rstrip ".app" arg_app_name
    else arg_app_name in
  found ← find_application w self_app_name base_path arg_app_name;
  ret {| self_app_name := self_app_name;
         base_path := base_path;
         patch_only := patch_only;
         app_path := found |}.

Definition load_plist (w : world) (self : t) : prog plist_root :=
  let plist_path := OsPath.join (app_path self) ["Contents"; "Info.plist"] in
  try_except
    (bs ← read_binary w plist_path; parse_plist w bs)
    (fun _ => true)
    (fun e => raise (PyExc RuntimeError
                       ("Error reading plist file at " +:+ plist_path
                        +:+ ". Details: " +:+ exc_str e))).

Definition extract_app_info (w : world) (self : t) : prog app_info :=
  plist_data ← load_plist w self;
  name_v ← plist_get plist_data "CFBundleName"
             (VStr (PyStr.replace ".app" EmptyString (OsPath.basename (app_path self))));
  '(nm, id) ← call_replace name_v " " EmptyString;
  bundle_id ← plist_get plist_data "CFBundleIdentifier" (VStr "unknown.bundle.id");
  version ← plist_get plist_data "CFBundleShortVersionString" (VStr "0.0.0");
  min_os ← plist_get plist_data "LSMinimumSystemVersion" (VStr "10.9");
  let last_modified := isoformat (now_utc w) +:+ "Z" in
  timestamp ← timestamp_of w (app_path self);
  ret {| app_name := nm;
         app_id := id;
         app_bundle_id := bundle_id;
         app_version := version;
         app_min_os := min_os;
         app_last_modified := last_modified;
         app_timestamp := timestamp |}.

Definition create_patch (info : app_info) : pyval :=
  VDict
    [ ("version", app_version info);
      ("releaseDate", VStr (app_timestamp info));
      ("standalone", VBool true);
      ("minimumOperatingSystem", app_min_os info);
      ("reboot", VBool false);
      ("killApps",
        VList [ VDict [ ("bundleId", app_bundle_id info);
                        ("appName", VStr (app_name info)) ] ]);
      ("components",
        VList [ VDict
          [ ("name", VStr (app_name info));
            ("version", app_version info);
            ("criteria",
              VList [ VDict [ ("name", VStr "Application Bundle ID");
                              ("operator", VStr "is");
                              ("value", app_bundle_id info);
                              ("type", VStr "recon") ];
                      VDict [ ("name", VStr "Application Version");
                              ("operator", VStr "is");
                              ("value", app_version info);
                              ("type", VStr "recon") ] ]) ] ]);
      ("capabilities",
        VList [ VDict [ ("name", VStr "Operating System Version");
                        ("operator", VStr "greater than or equal");
                        ("value", app_min_os info);
                        ("type", VStr "recon") ] ]);
      ("dependencies", VList []) ].

Definition create_full_definition (info : app_info) (patch : pyval) : pyval :=
  VDict
    [ ("id", VStr (app_id info));
      ("name", VStr (app_name info));
      ("publisher", VStr (app_name info));
      ("appName", VStr (app_name info +:+ ".app"));
      ("bundleId", app_bundle_id info);
      ("lastModified", VStr (app_last_modified info));
      ("currentVersion", app_version info);
      ("requirements",
        VList [ VDict [ ("name", VStr "Application Bundle ID");
                        ("operator", VStr "is");
                        ("value", app_bundle_id info);
                        ("type", VStr "recon") ] ]);
      ("patches", VList [patch]);
      ("extensionAttributes", VList []) ].

(** What [generate] returns: the JSON text of the document when
    [pretty_print] is set, else the document itself. *)
Inductive generated : Type :=
| JsonText (doc : pyval)
| Document (doc : pyval).

Definition generate (w : world) (self : t) (pretty_print : bool) : prog generated :=
  info ← extract_app_info w self;
  let patch := create_patch info in
  let doc := if patch_only self then patch else create_full_definition info patch in
  if pretty_print then
    match first_unserializable doc with
    | None => ret (JsonText doc)
    | Some bad => raise (not_serializable bad)
    end
  else ret (Document doc).

(** The script run as a program. *)
Definition script (w : world) : prog unit :=
  manager ← init w "Rectangle.app" "/Applications" false;
  out ← generate w manager true;
  match out with
  | JsonText doc => emit (EvPrintJson doc)
  | Document doc => emit (EvPrintRepr doc)
  end.

End TitleManager.

(** ** Vocabulary of the properties *)

(** The text with every space character left out. *)
Fixpoint remove_spaces (s : string) : string :=
  match s with
  | EmptyString => EmptyString
  | String c rest =>
      if Ascii.eqb c PyStr.space then remove_spaces rest
      else String c (remove_spaces rest)
  end.

(** The text with every space character turned into a hyphen. *)
Fixpoint hyphenate (s : string) : string :=
  match s with
  | EmptyString => EmptyString
  | String c rest =>
      String (if Ascii.eqb c PyStr.space then PyStr.hyphen else c) (hyphenate rest)
  end.

(** Where the manifest of a bundle is. *)
Definition manifest_path (bundle : string) : string :=
  OsPath.join bundle ["Contents"; "Info.plist"].

(** The name the scripts fall back to: the last component of the bundle
    path with every [.app] taken out. *)
Definition default_name (bundle : string) : pyval :=
  VStr (PyStr.replace ".app" EmptyString (OsPath.basename bundle)).

(** What [a or info.get(key, default)] evaluates to when [info] is a
    dictionary with [declared] under [key]. *)
Definition pick (a : option string) (declared : option pyval) (dflt : pyval) : pyval :=
  if str_truthy a then VStr (default EmptyString a)
  else match declared with Some v => v | None => dflt end.

(** Why a file cannot be read, if it cannot: the exception of
    [open(...).read()]. *)
Definition read_failure (w : world) (p : string) : option py_exception :=
  if PyStr.has_char PyStr.nul p then Some (PyExc ValueError "embedded null byte")
  else match fs w p with
       | FileBytes _ => None
       | OpenFails n msg => Some (os_error n msg (Some p))
       | ReadFails n msg => Some (os_error n msg None)
       end.

(** The bytes of a file that can be read. *)
Definition file_content (w : world) (p : string) : option (list Byte.byte) :=
  if PyStr.has_char PyStr.nul p then None
  else match fs w p with
       | FileBytes bs => Some bs
       | OpenFails _ _ | ReadFails _ _ => None
       end.

(** Why a manifest cannot be loaded, if it cannot: it cannot be read, or
    its bytes are no property list. *)
Definition manifest_failure (w : world) (p : string) : option py_exception :=
  match read_failure w p with
  | Some e => Some e
  | None =>
      match file_content w p with
      | Some bs => match plist_parse w bs with inr e => Some e | inl _ => None end
      | None => None
      end
  end.

(** The events of a run that give a document, or a part of one, out. *)
Definition is_output (e : event) : bool :=
  match e with
  | EvOpenRead _ => false
  | EvMakedirs _ | EvOpenWrite _ | EvJsonDump _ _ | EvJsonDumpAborted _ _
  | EvPrintJson _ | EvPrintRepr _ | EvPrint _ => true
  end.

(** How often a run opened a given file for reading. *)
Definition reads_of (p : string) (t : list event) : nat :=
  length (List.filter (fun e => match e with
                                | EvOpenRead q => String.eqb p q
                                | _ => false
                                end) t).

(** An option of the command line that was not given, or was given the
    empty text. *)
Definition no_override (o : option string) : Prop :=
  o = None ∨ o = Some EmptyString.

(** The command line with another [--app-version], [--min-sys-version] or
    [--name]. *)
Definition with_app_version (o : option string) (a : Patchstarter.args)
  : Patchstarter.args :=
  {| Patchstarter.path := Patchstarter.path a;
     Patchstarter.output := Patchstarter.output a;
     Patchstarter.publisher := Patchstarter.publisher a;
     Patchstarter.name := Patchstarter.name a;
     Patchstarter.extension_attribute := Patchstarter.extension_attribute a;
     Patchstarter.arg_app_version := o;
     Patchstarter.min_sys_version := Patchstarter.min_sys_version a;
     Patchstarter.patch_only := Patchstarter.patch_only a |}.

Definition with_min_sys_version (o : option string) (a : Patchstarter.args)
  : Patchstarter.args :=
  {| Patchstarter.path := Patchstarter.path a;
     Patchstarter.output := Patchstarter.output a;
     Patchstarter.publisher := Patchstarter.publisher a;
     Patchstarter.name := Patchstarter.name a;
     Patchstarter.extension_attribute := Patchstarter.extension_attribute a;
     Patchstarter.arg_app_version := Patchstarter.arg_app_version a;
     Patchstarter.min_sys_version := o;
     Patchstarter.patch_only := Patchstarter.patch_only a |}.

Definition with_patch_only (b : bool) (a : Patchstarter.args) : Patchstarter.args :=
  {| Patchstarter.path := Patchstarter.path a;
     Patchstarter.output := Patchstarter.output a;
     Patchstarter.publisher := Patchstarter.publisher a;
     Patchstarter.name := Patchstarter.name a;
     Patchstarter.extension_attribute := Patchstarter.extension_attribute a;
     Patchstarter.arg_app_version := Patchstarter.arg_app_version a;
     Patchstarter.min_sys_version := Patchstarter.min_sys_version a;
     Patchstarter.patch_only := b |}.

(** The extension attribute of the specification for an attachment with
    the given bytes: the key is the display name in lower case with every
    space turned into a hyphen, the value the base64 text of the bytes,
    and the display name is echoed. *)
Definition expected_attribute (info : app_info) (content : list Byte.byte) : pyval :=
  VDict [ ("key", VStr (hyphenate (PyStr.lower (app_name info))));
          ("value", VStr (Base64.b64encode content));
          ("displayName", VStr (app_name info)) ].

(** Every path of the list can be read, and these are the bytes. *)
Definition all_readable (w : world) (paths : list string)
    (contents : list (list Byte.byte)) : Prop :=
  Forall2 (fun p content => file_content w p = Some content) paths contents.

(** How a run ends that could not read an attachment: an [IOError] is
    turned into [SystemExit] with its text, anything else passes. *)
Definition attachment_failure {A} (e : py_exception) : outcome A :=
  if is_oserror e
  then SystemExit ("Error reading extension attribute: " +:+ exc_str e)
  else Raised e.

(** [d["patches"][0]]. *)
Definition first_patch (doc : pyval) : option pyval :=
  l ← field "patches" doc; item 0 l.


(** The first tier of the precedence as the specification words it: an
    override that is supplied is the value of the field, whatever the
    manifest declares. *)
Definition supplied_override_wins : Prop :=
  ∀ w a info,
    result (Patchstarter.get_app_info w a) = Returned info →
    (∀ v, Patchstarter.arg_app_version a = Some v → app_version info = VStr v)
    ∧ (∀ v, Patchstarter.min_sys_version a = Some v → app_min_os info = VStr v).

(** The text ends in the offset of UTC followed by a [Z]. *)
Definition ends_in_offset_and_Z (s : string) : bool := PyStr.endswith "+00:00Z" s.

(** A metadata record that one of the scripts extracted, in some world. *)
Definition extracted (info : app_info) : Prop :=
  (∃ w a, result (Patchstarter.get_app_info w a) = Returned info)
  ∨ (∃ w self, result (TitleManager.extract_app_info w self) = Returned info).

(** ** A bundle to run the scripts on

    The manifest of the specification's scenario, in a small file system:
    a script that can be read, one whose reading fails after it was
    opened, and nothing else. *)

Definition rectangle_manifest : pyval :=
  VDict [ ("CFBundleName", VStr "Rectangle");
          ("CFBundleIdentifier", VStr "com.knollsoft.Rectangle");
          ("CFBundleShortVersionString", VStr "0.55") ].

Definition rectangle_world : world :=
  {| fs := fun p =>
       if String.eqb p "/Applications/Rectangle.app/Contents/Info.plist"
       then FileBytes [Byte.x01]
       else if String.eqb p "inventory.sh" then FileBytes [Byte.x4d; Byte.x61]
       else if String.eqb p "broken.sh" then ReadFails 5 "Input/output error"
       else OpenFails 2 "No such file or directory";
     plist_parse := fun bs =>
       match bs with
       | [Byte.x01] => inl rectangle_manifest
       | _ => inr (PyExc InvalidFileException "Invalid file")
       end;
     now_utc := mk_datetime 2026 11 4 9 5 3 120;
     mtime_utc := fun _ => inl (mk_datetime 2024 1 2 3 4 5 0);
     glob := fun p => [p] |}.

Definition rectangle_args : Patchstarter.args :=
  {| Patchstarter.path := "/Applications/Rectangle.app";
     Patchstarter.output := None;
     Patchstarter.publisher := EmptyString;
     Patchstarter.name := EmptyString;
     Patchstarter.extension_attribute := None;
     Patchstarter.arg_app_version := None;
     Patchstarter.min_sys_version := None;
     Patchstarter.patch_only := false |}.



(** The command line with the same attachment twice. *)
Definition twice_attachment_args : Patchstarter.args :=
  {| Patchstarter.path := "/Applications/Rectangle.app";
     Patchstarter.output := None;
     Patchstarter.publisher := EmptyString;
     Patchstarter.name := EmptyString;
     Patchstarter.extension_attribute := Some ["inventory.sh"; "inventory.sh"];
     Patchstarter.arg_app_version := None;
     Patchstarter.min_sys_version := None;
     Patchstarter.patch_only := false |}.

(** The same command line for a bundle that is not there. *)
Definition missing_args : Patchstarter.args :=
  {| Patchstarter.path := "/Applications/Missing.app";
     Patchstarter.output := Some "out";
     Patchstarter.publisher := EmptyString;
     Patchstarter.name := EmptyString;
     Patchstarter.extension_attribute := None;
     Patchstarter.arg_app_version := None;
     Patchstarter.min_sys_version := None;
     Patchstarter.patch_only := false |}.

Definition rectangle_manager : TitleManager.t :=
  {| TitleManager.self_app_name := "Rectangle";
     TitleManager.base_path := "/Applications";
     TitleManager.patch_only := false;
     TitleManager.app_path := "/Applications/Rectangle.app" |}.

(** What extraction gives for that bundle. *)
Definition rectangle_info : app_info :=
  {| app_name := "Rectangle";
     app_id := "Rectangle";
     app_bundle_id := VStr "com.knollsoft.Rectangle";
     app_version := VStr "0.55";
     app_min_os := VStr "10.9";
     app_last_modified := "2026-11-04T09:05:03.000120+00:00Z";
     app_timestamp := "2024-01-02T03:04:05+00:00Z" |}.

Definition missing_manager : TitleManager.t :=
  {| TitleManager.self_app_name := "Missing";
     TitleManager.base_path := "/Applications";
     TitleManager.patch_only := false;
     TitleManager.app_path := "/Applications/Missing.app" |}.


(** ** More vocabulary, for the properties beyond the claims *)

(** The small file system again, around a manifest with another top-level
    value. *)
Definition manifest_world (root : pyval) : world :=
  {| fs := fs rectangle_world;
     plist_parse := fun bs =>
       match bs with
       | [Byte.x01] => inl root
       | _ => inr (PyExc InvalidFileException "Invalid file")
       end;
     now_utc := now_utc rectangle_world;
     mtime_utc := mtime_utc rectangle_world;
     glob := glob rectangle_world |}.

(** The command line with another [--name]. *)
Definition with_name (n : string) (a : Patchstarter.args) : Patchstarter.args :=
  {| Patchstarter.path := Patchstarter.path a;
     Patchstarter.output := Patchstarter.output a;
     Patchstarter.publisher := Patchstarter.publisher a;
     Patchstarter.name := n;
     Patchstarter.extension_attribute := Patchstarter.extension_attribute a;
     Patchstarter.arg_app_version := Patchstarter.arg_app_version a;
     Patchstarter.min_sys_version := Patchstarter.min_sys_version a;
     Patchstarter.patch_only := Patchstarter.patch_only a |}.

(** At most the one file, opened for reading at most once, and nothing
    else. *)
Definition opens_at_most (p : string) (t : list event) : Prop :=
  t = [] ∨ t = [EvOpenRead p].

(** The exception of [v.replace(" ", ...)] on a value that is no [str]. *)
Definition replace_error (v : pyval) : py_exception :=
  match v with
  | VBytes _ => PyExc TypeError "a bytes-like object is required, not 'str'"
  | VDate _ => PyExc TypeError "'str' object cannot be interpreted as an integer"
  | _ => PyExc AttributeError
           ("'" +:+ type_name v +:+ "' object has no attribute 'replace'")
  end.

Definition is_str (v : pyval) : bool :=
  match v with VStr _ => true | _ => false end.

(** Manifests for the edges: a top-level array, and a dictionary whose
    name is a number. *)
Definition array_manifest : pyval := VList [VStr "Rectangle"].

Definition numeric_name_manifest : pyval :=
  VDict [ ("CFBundleName", VInt 7);
          ("CFBundleIdentifier", VStr "com.knollsoft.Rectangle") ].


(** A file name put under a directory, with one slash between the two. *)
Definition under_directory (dir filename : string) : string :=
  if PyStr.endswith "/" dir then dir +:+ filename else dir +:+ "/" +:+ filename.


(** A manifest that declares no name. *)
Definition nameless_manifest : pyval :=
  VDict [ ("CFBundleIdentifier", VStr "com.knollsoft.Rectangle") ].

(** The command line with another [--publisher] and other attachments. *)
Definition with_publisher_and_attachments (pub : string) (ext : option (list string))
    (a : Patchstarter.args) : Patchstarter.args :=
  {| Patchstarter.path := Patchstarter.path a;
     Patchstarter.output := Patchstarter.output a;
     Patchstarter.publisher := pub;
     Patchstarter.name := Patchstarter.name a;
     Patchstarter.extension_attribute := ext;
     Patchstarter.arg_app_version := Patchstarter.arg_app_version a;
     Patchstarter.min_sys_version := Patchstarter.min_sys_version a;
     Patchstarter.patch_only := Patchstarter.patch_only a |}.




(** A command line that gives only the bundle path of a manager: no name,
    no version overrides. *)
Definition plain_args_for (self : TitleManager.t) (a : Patchstarter.args) : Prop :=
  Patchstarter.path a = TitleManager.app_path self
  ∧ Patchstarter.name a = EmptyString
  ∧ no_override (Patchstarter.arg_app_version a)
  ∧ no_override (Patchstarter.min_sys_version a).


(** The pattern [find_application] hands to [glob] for an argument that
    ends in [.app], and the error it raises when nothing matches. *)
Definition search_pattern (base stem : string) : string :=
  OsPath.join base [PyStr.rstrip ".app" stem].

Definition not_found (arg base : string) : py_exception :=
  PyExc ValueError ("Application '" +:+ arg +:+ "' not found in " +:+ base +:+ ".").

(** A world whose [glob] finds everything it is asked for but one
    pattern. *)
Definition world_without (pattern : string) : world :=
  {| fs := fs rectangle_world;
     plist_parse := plist_parse rectangle_world;
     now_utc := now_utc rectangle_world;
     mtime_utc := mtime_utc rectangle_world;
     glob := fun p => if String.eqb p pattern then [] else [p] |}.



(** * Properties *)

(** ** Computations *)

Section ProgLemmas.
Context {A B : Type}.
Implicit Types (m : prog A) (k : A → prog B).

Lemma bind_ret_l (a : A) k : (ret a ≫= k) = k a.
Proof. unfold mbind, prog_bind, bind, ret. by destruct (k a). Qed.

Lemma bind_returned_l m k t a :
  m = (t, Returned a) → (m ≫= k) = (t ++ trace (k a), result (k a)).
Proof. intros ->. unfold mbind, prog_bind, bind, trace, result. by destruct (k a). Qed.

Lemma bind_sys_exit_l m k t msg :
  m = (t, SystemExit msg) → (m ≫= k) = (t, SystemExit msg).
Proof. by intros ->. Qed.

Lemma bind_raised_l m k t e :
  m = (t, Raised e) → (m ≫= k) = (t, Raised e).
Proof. by intros ->. Qed.

(** A sequence returns only when both parts return. *)
Lemma bind_returned_inv m k t b :
  (m ≫= k) = (t, Returned b) →
  ∃ t1 a t2, m = (t1, Returned a) ∧ k a = (t2, Returned b) ∧ t = t1 ++ t2.
Proof.
  destruct m as [t1 [a | msg | e]]; unfold mbind, prog_bind, bind; [| done | done].
  destruct (k a) as [t2 r] eqn:Hk. intros [= <- ->]. by exists t1, a, t2.
Qed.
End ProgLemmas.

(** ** The scenario of the specification

    The manifest declares a name, an identifier and a version but no
    minimum system version; no overrides, no attachments, full mode. *)

Example rectangle_full_mode :
  Patchstarter.main rectangle_world rectangle_args
  = ([ EvOpenRead "/Applications/Rectangle.app/Contents/Info.plist";
       EvPrintJson (Patchstarter.definition rectangle_info
                      (Patchstarter.create_patch rectangle_info) rectangle_args []) ],
     Returned ()).
Proof. vm_compute. reflexivity. Qed.

Example rectangle_fields :
  let doc := Patchstarter.definition rectangle_info
               (Patchstarter.create_patch rectangle_info) rectangle_args [] in
  field "id" doc = Some (VStr "Rectangle")
  ∧ field "bundleId" doc = Some (VStr "com.knollsoft.Rectangle")
  ∧ field "currentVersion" doc = Some (VStr "0.55")
  ∧ (patch ← first_patch doc; field "minimumOperatingSystem" patch) = Some (VStr "10.9")
  ∧ field "extensionAttributes" doc = Some (VList []).
Proof. repeat split; reflexivity. Qed.

(** ** Strings *)

Module PyStrFacts.
Import PyStr.

Lemma prefix_space c rest :
  String.prefix " " (String c rest) = Ascii.eqb c space.
Proof.
  change (String.prefix " " (String c rest))
    with (if ascii_dec space c then String.prefix EmptyString rest else false).
  destruct (ascii_dec space c) as [<- | Hne].
  - by destruct rest.
  - symmetry. apply Ascii.eqb_neq. congruence.
Qed.

Lemma replace_space_remove s : replace " " EmptyString s = remove_spaces s.
Proof.
  unfold replace. induction s as [| c rest IH]; [done |].
  cbn [replace_from remove_spaces]. rewrite prefix_space.
  destruct (Ascii.eqb c space); cbn; by rewrite IH.
Qed.

Lemma replace_space_hyphen s : replace " " "-" s = hyphenate s.
Proof.
  unfold replace. induction s as [| c rest IH]; [done |].
  cbn [replace_from hyphenate]. rewrite prefix_space.
  destruct (Ascii.eqb c space); cbn; by rewrite IH.
Qed.

Lemma remove_spaces_no_space s : has_char space (remove_spaces s) = false.
Proof.
  induction s as [| c rest IH]; [done |]. cbn [remove_spaces].
  destruct (Ascii.eqb c space) eqn:Hc; [done |].
  cbn [has_char]. by rewrite Ascii.eqb_sym, Hc, IH.
Qed.

Lemma endswith_refl s : endswith s s = true.
Proof. destruct s; cbn; by rewrite ?Ascii.eqb_refl, ?String.eqb_refl. Qed.

Lemma endswith_app p suf : endswith suf (p +:+ suf) = true.
Proof.
  induction p as [| c p IH]; [apply endswith_refl |].
  change (String c p +:+ suf) with (String c (p +:+ suf)).
  change (endswith suf (String c (p +:+ suf)))
    with (String.eqb suf (String c (p +:+ suf)) || endswith suf (p +:+ suf)).
  rewrite IH. apply orb_true_r.
Qed.

Lemma append_assoc (a b c : string) : (a +:+ b) +:+ c = a +:+ (b +:+ c).
Proof.
  induction a as [| x a IH]; [done |].
  change (String x ((a +:+ b) +:+ c) = String x (a +:+ (b +:+ c))).
  by rewrite IH.
Qed.

End PyStrFacts.

(** ** Base64 *)

Module Base64Facts.
Import Base64.











End Base64Facts.

(** ** Extraction *)

Lemma py_or_plist_get a m key dflt :
  py_or a (plist_get (RootDict m) key dflt) = ret (pick a (m !! key) dflt).
Proof. unfold py_or, pick, str_truthy. destruct a as [[| c s] |]; reflexivity. Qed.

Lemma plist_get_dict m key dflt :
  plist_get (RootDict m) key dflt = ret (pick None (m !! key) dflt).
Proof. reflexivity. Qed.

Section Extraction.
Import Patchstarter.
Variables (w : world) (a : args).

Lemma get_app_info_returned t info :
  get_app_info w a = (t, Returned info) →
  ∃ m d,
    load_plist w (manifest_path (path a)) = (t, Returned (RootDict m)) ∧
    mtime_utc w (path a) = inl d ∧
    pick (Some (name a)) (m !! "CFBundleName") (default_name (path a)) = VStr (app_name info) ∧
    info = {| app_name := app_name info;
              app_id := PyStr.replace " " EmptyString (app_name info);
              app_bundle_id := pick None (m !! "CFBundleIdentifier") (VStr "unknown.bundle.id");
              app_version := pick (arg_app_version a) (m !! "CFBundleShortVersionString") (VStr "0.0.0");
              app_min_os := pick (min_sys_version a) (m !! "LSMinimumSystemVersion") (VStr "10.9");
              app_last_modified := isoformat (now_utc w) +:+ "Z";
              app_timestamp := isoformat d +:+ "Z" |}.
Proof.
  unfold get_app_info.
change (OsPath.join (path a) ["Contents"; "Info.plist"]) with (manifest_path (path a)).
change (VStr (PyStr.replace ".app" EmptyString (OsPath.basename (path a)))) with (default_name (path a)).
  intros H. apply bind_returned_inv in H as (t1 & root & t2 & Hload & H & ->).
  destruct root as [m | v].
  - rewrite !py_or_plist_get, !plist_get_dict in H.
    rewrite bind_ret_l in H.
    destruct (pick (Some (name a)) (m !! "CFBundleName") (default_name (path a)))
      as [| | | | nm | | | | |] eqn:Hname; try discriminate H.
    unfold call_replace in H. rewrite !bind_ret_l in H.
    unfold timestamp_of in H.
    destruct (mtime_utc w (path a)) as [d | e] eqn:Hd; [| discriminate H].
    rewrite bind_ret_l in H. injection H as <- <-.
    exists m, d. by rewrite app_nil_r.
  - exfalso.
    apply bind_returned_inv in H as (? & name_v & ? & _ & H & _).
    apply bind_returned_inv in H as (? & [nm id] & ? & _ & H & _).
    apply bind_returned_inv in H as (? & bid & ? & H & _). discriminate H.
Qed.

(** Extraction returns whenever the manifest is a dictionary, the name
    it settles on is text and the bundle's modification time can be
    read. *)
Lemma get_app_info_returns t m d nm :
  load_plist w (manifest_path (path a)) = (t, Returned (RootDict m)) →
  mtime_utc w (path a) = inl d →
  pick (Some (name a)) (m !! "CFBundleName") (default_name (path a)) = VStr nm →
  get_app_info w a =
    (t, Returned
          {| app_name := nm;
             app_id := PyStr.replace " " EmptyString nm;
             app_bundle_id := pick None (m !! "CFBundleIdentifier") (VStr "unknown.bundle.id");
             app_version := pick (arg_app_version a) (m !! "CFBundleShortVersionString") (VStr "0.0.0");
             app_min_os := pick (min_sys_version a) (m !! "LSMinimumSystemVersion") (VStr "10.9");
             app_last_modified := isoformat (now_utc w) +:+ "Z";
             app_timestamp := isoformat d +:+ "Z" |}).
Proof.
  intros Hload Hd Hname. unfold get_app_info.
change (OsPath.join (path a) ["Contents"; "Info.plist"]) with (manifest_path (path a)).
change (VStr (PyStr.replace ".app" EmptyString (OsPath.basename (path a)))) with (default_name (path a)).
  rewrite (bind_returned_l _ _ _ _ Hload).
  rewrite !py_or_plist_get, !plist_get_dict, bind_ret_l, Hname.
  unfold call_replace, timestamp_of. rewrite !bind_ret_l, Hd, bind_ret_l.
  unfold trace, result, ret. by rewrite app_nil_r.
Qed.

(** When the manifest cannot be loaded, extraction ends as loading did. *)
Lemma get_app_info_sys_exit t msg :
  load_plist w (manifest_path (path a)) = (t, SystemExit msg) →
  get_app_info w a = (t, SystemExit msg).
Proof.
intros H. unfold get_app_info.
change (OsPath.join (path a) ["Contents"; "Info.plist"]) with (manifest_path (path a)).
by rewrite H.
Qed.
End Extraction.

(** ** Loading the manifest *)

Lemma read_binary_content w p content :
  file_content w p = Some content →
  read_binary w p = ([EvOpenRead p], Returned content).
Proof.
  unfold file_content, read_binary.
  destruct (PyStr.has_char PyStr.nul p); [done |].
  destruct (fs w p); [| done ..]. by intros [= ->].
Qed.

Lemma read_binary_failure w p e :
  read_failure w p = Some e →
  read_binary w p = (if PyStr.has_char PyStr.nul p then [] else [EvOpenRead p], Raised e).
Proof.
  unfold read_failure, read_binary.
  destruct (PyStr.has_char PyStr.nul p); [by intros [= ->] |].
  destruct (fs w p); [done | by intros [= <-] ..].
Qed.

Lemma read_failure_or_content w p :
  (∃ e, read_failure w p = Some e ∧ file_content w p = None)
  ∨ (∃ content, read_failure w p = None ∧ file_content w p = Some content).
Proof.
  unfold read_failure, file_content.
  destruct (PyStr.has_char PyStr.nul p); [by eauto |].
  destruct (fs w p); by eauto.
Qed.

(** Reading and parsing the manifest raises exactly when
    [manifest_failure] says so. *)
Lemma read_and_parse_failure w p e :
  manifest_failure w p = Some e →
  (content ← read_binary w p; parse_plist w content) =
    (if PyStr.has_char PyStr.nul p then [] else [EvOpenRead p], Raised e).
Proof.
  unfold manifest_failure.
  destruct (read_failure_or_content w p) as [(e0 & Hf & Hc) | (content & Hf & Hc)];
    rewrite Hf, ?Hc.
  - intros [= <-]. by rewrite (bind_raised_l _ _ _ _ (read_binary_failure _ _ _ Hf)).
  - rewrite (bind_returned_l _ _ _ _ (read_binary_content _ _ _ Hc)).
    assert (PyStr.has_char PyStr.nul p = false) as ->.
    { unfold file_content in Hc. by destruct (PyStr.has_char PyStr.nul p). }
    unfold parse_plist. destruct (plist_parse w content) as [v | e']; [done |].
    by intros [= <-].
Qed.

Lemma load_plist_failure w p e :
  manifest_failure w p = Some e →
  Patchstarter.load_plist w p =
    (if PyStr.has_char PyStr.nul p then [] else [EvOpenRead p],
     SystemExit ("Error reading plist: " +:+ exc_str e)).
Proof.
  intros H. unfold Patchstarter.load_plist. rewrite (read_and_parse_failure _ _ _ H).
  unfold try_except, sys_exit. by rewrite app_nil_r.
Qed.

Lemma title_manager_load_plist_failure w self e :
  manifest_failure w (manifest_path (TitleManager.app_path self)) = Some e →
  TitleManager.load_plist w self =
    (if PyStr.has_char PyStr.nul (manifest_path (TitleManager.app_path self)) then []
     else [EvOpenRead (manifest_path (TitleManager.app_path self))],
     Raised (PyExc RuntimeError
               ("Error reading plist file at "
                +:+ manifest_path (TitleManager.app_path self)
                +:+ ". Details: " +:+ exc_str e))).
Proof.
  intros H. unfold TitleManager.load_plist.
  change (OsPath.join (TitleManager.app_path self) ["Contents"; "Info.plist"])
    with (manifest_path (TitleManager.app_path self)).
  rewrite (read_and_parse_failure _ _ _ H).
  unfold try_except, raise. by rewrite app_nil_r.
Qed.

Lemma reads_of_at_most_one p q (b : bool) :
  (reads_of p (if b then [] else [EvOpenRead q]) ≤ 1)%nat.
Proof. destruct b; unfold reads_of; cbn; [lia |]. destruct (String.eqb p q); cbn; lia. Qed.

Lemma no_output_open_read (b : bool) q :
  List.filter is_output (if b then [] else [EvOpenRead q]) = [].
Proof. by destruct b. Qed.

(** C6.  When the manifest of the bundle cannot be read, or its bytes are
    no property list, [patchstarter.py] ends with [SystemExit] whose
    message carries the text of the underlying exception, the exit status
    is not zero, the run gave nothing out, and it opened the manifest at
    most once; [TitleManager.generate] ends the same way with a
    [RuntimeError] that names the manifest and carries that text. *)
Theorem manifest_failure_is_fatal (w : world) (bundle : string) (e : py_exception) :
  manifest_failure w (manifest_path bundle) = Some e →
  (∀ a, Patchstarter.path a = bundle →
     result (Patchstarter.main w a) = SystemExit ("Error reading plist: " +:+ exc_str e)
     ∧ exit_status (result (Patchstarter.main w a)) ≠ 0%Z
     ∧ List.filter is_output (trace (Patchstarter.main w a)) = []
     ∧ emitted_docs (trace (Patchstarter.main w a)) = []
     ∧ (reads_of (manifest_path bundle) (trace (Patchstarter.main w a)) ≤ 1)%nat)
  ∧ (∀ self pretty_print, TitleManager.app_path self = bundle →
     result (TitleManager.generate w self pretty_print) =
       Raised (PyExc RuntimeError
                 ("Error reading plist file at " +:+ manifest_path bundle
                  +:+ ". Details: " +:+ exc_str e))
     ∧ exit_status (result (TitleManager.generate w self pretty_print)) ≠ 0%Z
     ∧ List.filter is_output (trace (TitleManager.generate w self pretty_print)) = []
     ∧ emitted_docs (trace (TitleManager.generate w self pretty_print)) = []
     ∧ (reads_of (manifest_path bundle)
          (trace (TitleManager.generate w self pretty_print)) ≤ 1)%nat)
  ∧ (∀ self,
     result (TitleManager.init w "Rectangle.app" "/Applications" false) = Returned self →
     TitleManager.app_path self = bundle →
     result (TitleManager.script w) =
       Raised (PyExc RuntimeError
                 ("Error reading plist file at " +:+ manifest_path bundle
                  +:+ ". Details: " +:+ exc_str e))
     ∧ exit_status (result (TitleManager.script w)) ≠ 0%Z
     ∧ emitted_docs (trace (TitleManager.script w)) = []).
Proof.
  intros Hfail.
  assert (∀ self pp, TitleManager.app_path self = bundle →
            TitleManager.generate w self pp
            = (if PyStr.has_char PyStr.nul (manifest_path bundle) then []
               else [EvOpenRead (manifest_path bundle)],
               Raised (PyExc RuntimeError
                         ("Error reading plist file at " +:+ manifest_path bundle
                          +:+ ". Details: " +:+ exc_str e)))) as Hgen.
  { intros self pp <-.
    pose proof (title_manager_load_plist_failure _ _ _ Hfail) as Hload.
    unfold TitleManager.generate, TitleManager.extract_app_info.
    by rewrite (bind_raised_l _ _ _ _ (bind_raised_l _ _ _ _ Hload)). }
  split; [| split].
  - intros a <-.
    pose proof (get_app_info_sys_exit w a _ _ (load_plist_failure _ _ _ Hfail)) as Hinfo.
    unfold Patchstarter.main. rewrite (bind_sys_exit_l _ _ _ _ Hinfo).
    unfold result, trace; cbn [fst snd exit_status].
    repeat split; [done | apply no_output_open_read | | apply reads_of_at_most_one].
    by destruct (PyStr.has_char _ _).
  - intros self pp Hpath. rewrite (Hgen self pp Hpath).
    unfold result, trace; cbn [fst snd exit_status].
    repeat split; [done | apply no_output_open_read | | apply reads_of_at_most_one].
    by destruct (PyStr.has_char _ _).
  - intros self Hinit Hpath. unfold TitleManager.script.
    assert (TitleManager.init w "Rectangle.app" "/Applications" false
            = ([], Returned self)) as Hinit'.
    { revert Hinit. unfold TitleManager.init, TitleManager.find_application.
      destruct (glob w _); [done |]. by intros [= <-]. }
    rewrite (bind_returned_l _ _ _ _ Hinit').
    rewrite (bind_raised_l _ _ _ _ (Hgen self true Hpath)).
    unfold result, trace; cbn [fst snd exit_status app].
    repeat split; [done |]. by destruct (PyStr.has_char _ _).
Qed.

Lemma manifest_failure_is_fatal_witness :
  result (Patchstarter.main rectangle_world missing_args) =
    SystemExit "Error reading plist: [Errno 2] No such file or directory: '/Applications/Missing.app/Contents/Info.plist'"
  ∧ result (TitleManager.generate rectangle_world missing_manager true) =
    Raised (PyExc RuntimeError
      "Error reading plist file at /Applications/Missing.app/Contents/Info.plist. Details: [Errno 2] No such file or directory: '/Applications/Missing.app/Contents/Info.plist'").
Proof.
  destruct (manifest_failure_is_fatal rectangle_world "/Applications/Missing.app"
              (os_error 2 "No such file or directory"
                 (Some "/Applications/Missing.app/Contents/Info.plist")))
    as (Hp & Ht & _); [vm_compute; reflexivity |].
  split.
  - exact (proj1 (Hp missing_args eq_refl)).
  - exact (proj1 (Ht missing_manager true eq_refl)).
Defined.

(** ** The metadata record *)

Lemma title_manager_extract_returned w self t info :
  TitleManager.extract_app_info w self = (t, Returned info) →
  ∃ m d,
    TitleManager.load_plist w self = (t, Returned (RootDict m)) ∧
    mtime_utc w (TitleManager.app_path self) = inl d ∧
    pick None (m !! "CFBundleName") (default_name (TitleManager.app_path self))
      = VStr (app_name info) ∧
    info = {| app_name := app_name info;
              app_id := PyStr.replace " " EmptyString (app_name info);
              app_bundle_id := pick None (m !! "CFBundleIdentifier") (VStr "unknown.bundle.id");
              app_version := pick None (m !! "CFBundleShortVersionString") (VStr "0.0.0");
              app_min_os := pick None (m !! "LSMinimumSystemVersion") (VStr "10.9");
              app_last_modified := isoformat (now_utc w) +:+ "Z";
              app_timestamp := isoformat d +:+ "Z" |}.
Proof.
  unfold TitleManager.extract_app_info.
  change (VStr (PyStr.replace ".app" EmptyString (OsPath.basename (TitleManager.app_path self))))
    with (default_name (TitleManager.app_path self)).
  intros H. apply bind_returned_inv in H as (t1 & root & t2 & Hload & H & ->).
  destruct root as [m | v].
  - rewrite !plist_get_dict in H. rewrite bind_ret_l in H.
    destruct (pick None (m !! "CFBundleName") (default_name (TitleManager.app_path self)))
      as [| | | | nm | | | | |] eqn:Hname; try discriminate H.
    unfold call_replace in H. rewrite !bind_ret_l in H.
    unfold timestamp_of in H.
    destruct (mtime_utc w (TitleManager.app_path self)) as [d | e] eqn:Hd; [| discriminate H].
    rewrite bind_ret_l in H. injection H as <- <-.
    exists m, d. by rewrite app_nil_r.
  - exfalso. apply bind_returned_inv in H as (? & name_v & ? & H & _). discriminate H.
Qed.

(** Every extracted record has the id that [str.replace] computes from its
    name. *)
Lemma extracted_app_id info :
  extracted info → app_id info = PyStr.replace " " EmptyString (app_name info).
Proof.
  intros [(w & a & H) | (w & self & H)].
  - destruct (Patchstarter.get_app_info w a) as [t r] eqn:Hrun. cbn in H. subst r.
    apply get_app_info_returned in Hrun as (m & d & _ & _ & _ & ->). reflexivity.
  - destruct (TitleManager.extract_app_info w self) as [t r] eqn:Hrun. cbn in H. subst r.
    apply title_manager_extract_returned in Hrun as (m & d & _ & _ & _ & ->). reflexivity.
Qed.

Lemma create_patch_definition_returned w info patch a t doc :
  Patchstarter.create_patch_definition w info patch a = (t, Returned doc) →
  ∃ attrs, doc = Patchstarter.definition info patch a attrs.
Proof.
  unfold Patchstarter.create_patch_definition.
  destruct (Patchstarter.extension_attribute a) as [[| p ps] |].
  - intros [= <- <-]. by eexists.
  - intros H. apply bind_returned_inv in H as (t1 & attrs & t2 & _ & [= <- <-] & _).
    by eexists.
  - intros [= <- <-]. by eexists.
Qed.


Lemma rectangle_extracted : extracted rectangle_info.
Proof. left. exists rectangle_world, rectangle_args. vm_compute. reflexivity. Defined.


(** ** Timestamps *)

(** The ISO text of an aware UTC value ends in its offset. *)
Lemma isoformat_offset d : ∃ p, isoformat d = p +:+ "+00:00".
Proof.
  unfold isoformat. eexists. rewrite <- !PyStrFacts.append_assoc. reflexivity.
Qed.

Lemma stamped_ends_in_offset_and_Z d : ends_in_offset_and_Z (isoformat d +:+ "Z") = true.
Proof.
  destruct (isoformat_offset d) as [p ->]. rewrite PyStrFacts.append_assoc.
  apply (PyStrFacts.endswith_app p "+00:00Z").
Qed.

(** C5.  Both timestamps of an extracted record are the ISO-8601 text of a
    UTC value, the clock's and the bundle's modification time, with the
    letter [Z] appended; as that text already ends in the offset [+00:00],
    both end in [+00:00Z].  The patch gives the second out as
    [releaseDate], the full definition the first as [lastModified]. *)
Theorem timestamps_carry_offset_and_Z (w : world) (a : Patchstarter.args) (info : app_info) :
  result (Patchstarter.get_app_info w a) = Returned info →
  app_last_modified info = isoformat (now_utc w) +:+ "Z"
  ∧ (∃ d, mtime_utc w (Patchstarter.path a) = inl d
          ∧ app_timestamp info = isoformat d +:+ "Z")
  ∧ ends_in_offset_and_Z (app_last_modified info) = true
  ∧ ends_in_offset_and_Z (app_timestamp info) = true
  ∧ field "releaseDate" (Patchstarter.create_patch info) = Some (VStr (app_timestamp info))
  ∧ (∀ patch attrs,
       field "lastModified" (Patchstarter.definition info patch a attrs)
       = Some (VStr (app_last_modified info))).
Proof.
  intros H. destruct (Patchstarter.get_app_info w a) as [t r] eqn:Hrun. cbn in H. subst r.
  apply get_app_info_returned in Hrun as (m & d & _ & Hd & _ & ->).
  cbn [app_last_modified app_timestamp].
  split; [done |]. split; [by exists d |].
  split; [apply stamped_ends_in_offset_and_Z |].
  split; [apply stamped_ends_in_offset_and_Z |]. by split.
Qed.

Lemma timestamps_carry_offset_and_Z_witness :
  app_last_modified rectangle_info = "2026-11-04T09:05:03.000120+00:00Z"
  ∧ ends_in_offset_and_Z (app_timestamp rectangle_info) = true.
Proof.
  pose proof (timestamps_carry_offset_and_Z rectangle_world rectangle_args rectangle_info
                ltac:(vm_compute; reflexivity)) as (H1 & _ & _ & H4 & _).
  split; [exact H1 | exact H4].
Defined.

(** ** Precedence of the sources of a field *)

Lemma pick_supplied v declared dflt :
  v ≠ EmptyString → pick (Some v) declared dflt = VStr v.
Proof. by destruct v. Qed.

Lemma pick_no_override o declared dflt :
  no_override o →
  pick o declared dflt = match declared with Some x => x | None => dflt end.
Proof. by intros [-> | ->]. Qed.

(** Every field of an extracted record, from the command line and the
    manifest that was loaded. *)
Lemma extraction_fields w a info m :
  result (Patchstarter.get_app_info w a) = Returned info →
  result (Patchstarter.load_plist w (manifest_path (Patchstarter.path a)))
    = Returned (RootDict m) →
  VStr (app_name info)
    = pick (Some (Patchstarter.name a)) (m !! "CFBundleName")
        (default_name (Patchstarter.path a))
  ∧ app_bundle_id info
    = pick None (m !! "CFBundleIdentifier") (VStr "unknown.bundle.id")
  ∧ app_version info
    = pick (Patchstarter.arg_app_version a) (m !! "CFBundleShortVersionString")
        (VStr "0.0.0")
  ∧ app_min_os info
    = pick (Patchstarter.min_sys_version a) (m !! "LSMinimumSystemVersion")
        (VStr "10.9").
Proof.
  intros H Hm.
  destruct (Patchstarter.get_app_info w a) as [t r] eqn:Hrun. cbn in H. subst r.
  apply get_app_info_returned in Hrun as (m' & d & Hload & _ & Hname & ->).
  rewrite Hload in Hm. cbn in Hm. injection Hm as ->.
  cbn [app_name app_bundle_id app_version app_min_os]. by rewrite Hname.
Qed.

(** C1, as the code has it.  For a record extracted from a manifest that
    is a dictionary: an override that is not the empty text is the value
    of the field, whatever the manifest declares; without such an override
    the field is what the manifest declares; and when the manifest
    declares nothing it is the default: ["0.0.0"] for the version,
    ["10.9"] for the minimum OS, and for the display name the last
    component of the bundle path with every [.app] taken out.  The bundle
    identifier has no override: it is what the manifest declares, else
    ["unknown.bundle.id"]. *)
Theorem override_precedence (w : world) (a : Patchstarter.args) (info : app_info)
    (m : gmap string pyval) :
  result (Patchstarter.get_app_info w a) = Returned info →
  result (Patchstarter.load_plist w (manifest_path (Patchstarter.path a)))
    = Returned (RootDict m) →
  (* display name *)
  (Patchstarter.name a ≠ EmptyString → app_name info = Patchstarter.name a)
  ∧ (Patchstarter.name a = EmptyString →
       ∀ x, m !! "CFBundleName" = Some x → VStr (app_name info) = x)
  ∧ (Patchstarter.name a = EmptyString → m !! "CFBundleName" = None →
       VStr (app_name info) = default_name (Patchstarter.path a))
  (* version *)
  ∧ (∀ v, Patchstarter.arg_app_version a = Some v → v ≠ EmptyString →
       app_version info = VStr v)
  ∧ (no_override (Patchstarter.arg_app_version a) →
       ∀ x, m !! "CFBundleShortVersionString" = Some x → app_version info = x)
  ∧ (no_override (Patchstarter.arg_app_version a) →
       m !! "CFBundleShortVersionString" = None → app_version info = VStr "0.0.0")
  (* minimum OS *)
  ∧ (∀ v, Patchstarter.min_sys_version a = Some v → v ≠ EmptyString →
       app_min_os info = VStr v)
  ∧ (no_override (Patchstarter.min_sys_version a) →
       ∀ x, m !! "LSMinimumSystemVersion" = Some x → app_min_os info = x)
  ∧ (no_override (Patchstarter.min_sys_version a) →
       m !! "LSMinimumSystemVersion" = None → app_min_os info = VStr "10.9")
  (* bundle identifier *)
  ∧ (∀ x, m !! "CFBundleIdentifier" = Some x → app_bundle_id info = x)
  ∧ (m !! "CFBundleIdentifier" = None → app_bundle_id info = VStr "unknown.bundle.id").
Proof.
  intros H Hm. destruct (extraction_fields _ _ _ _ H Hm) as (Hn & Hb & Hv & Ho).
  repeat split.
  - intros Hne. rewrite pick_supplied in Hn by done. by injection Hn.
  - intros He x Hx. rewrite Hn, pick_no_override, Hx; [done | right; by rewrite He].
  - intros He Hx. rewrite Hn, pick_no_override, Hx; [done | right; by rewrite He].
  - intros v Hs Hne. by rewrite Hv, Hs, pick_supplied.
  - intros Hno x Hx. by rewrite Hv, pick_no_override, Hx.
  - intros Hno Hx. by rewrite Hv, pick_no_override, Hx.
  - intros v Hs Hne. by rewrite Ho, Hs, pick_supplied.
  - intros Hno x Hx. by rewrite Ho, pick_no_override, Hx.
  - intros Hno Hx. by rewrite Ho, pick_no_override, Hx.
  - intros x Hx. by rewrite Hb, pick_no_override, Hx; [| left].
  - intros Hx. by rewrite Hb, pick_no_override, Hx; [| left].
Qed.

Lemma override_precedence_witness :
  app_version rectangle_info = VStr "0.55"
  ∧ app_min_os rectangle_info = VStr "10.9"
  ∧ VStr (app_name rectangle_info) = VStr "Rectangle".
Proof.
  pose proof (override_precedence rectangle_world rectangle_args rectangle_info
                (list_to_map [ ("CFBundleName", VStr "Rectangle");
                               ("CFBundleIdentifier", VStr "com.knollsoft.Rectangle");
                               ("CFBundleShortVersionString", VStr "0.55") ])
                ltac:(vm_compute; reflexivity) ltac:(reflexivity))
    as (_ & Hname & _ & _ & Hver & _ & _ & _ & Hmin & _).
  split; [| split].
  - apply Hver; [by left | reflexivity].
  - apply Hmin; [by left | reflexivity].
  - apply Hname; reflexivity.
Defined.

(** C1 as worded fails: [--app-version] given the empty text is an
    override that is supplied, and the version of the record is the
    manifest's ["0.55"], not the empty text. *)
Lemma empty_override_does_not_win :
  result (Patchstarter.get_app_info rectangle_world
            (with_app_version (Some EmptyString) rectangle_args))
    = Returned rectangle_info
  ∧ app_version rectangle_info = VStr "0.55"
  ∧ ¬ supplied_override_wins.
Proof.
  assert (result (Patchstarter.get_app_info rectangle_world
                    (with_app_version (Some EmptyString) rectangle_args))
          = Returned rectangle_info) as Hrun by (vm_compute; reflexivity).
  split; [exact Hrun |]. split; [reflexivity |].
  intros Hclaim. destruct (Hclaim _ _ _ Hrun) as [Hv _].
  specialize (Hv EmptyString eq_refl). discriminate Hv.
Qed.

(** C9.  An override that is the empty text counts as no override: the
    run with [--app-version] or [--min-sys-version] given the empty text
    is the run without that option, event for event; and with the empty
    text (the default of [--name]) or nothing as the override, the field
    is what the manifest declares, or the default when it declares
    nothing. *)
Theorem empty_override_is_no_override (w : world) (a : Patchstarter.args) :
  Patchstarter.get_app_info w (with_app_version (Some EmptyString) a)
    = Patchstarter.get_app_info w (with_app_version None a)
  ∧ Patchstarter.main w (with_app_version (Some EmptyString) a)
    = Patchstarter.main w (with_app_version None a)
  ∧ Patchstarter.get_app_info w (with_min_sys_version (Some EmptyString) a)
    = Patchstarter.get_app_info w (with_min_sys_version None a)
  ∧ Patchstarter.main w (with_min_sys_version (Some EmptyString) a)
    = Patchstarter.main w (with_min_sys_version None a)
  ∧ (∀ info m,
       result (Patchstarter.get_app_info w a) = Returned info →
       result (Patchstarter.load_plist w (manifest_path (Patchstarter.path a)))
         = Returned (RootDict m) →
       (Patchstarter.name a = EmptyString →
          VStr (app_name info)
          = match m !! "CFBundleName" with
            | Some x => x
            | None => default_name (Patchstarter.path a)
            end)
       ∧ (no_override (Patchstarter.arg_app_version a) →
          app_version info
          = match m !! "CFBundleShortVersionString" with
            | Some x => x
            | None => VStr "0.0.0"
            end)
       ∧ (no_override (Patchstarter.min_sys_version a) →
          app_min_os info
          = match m !! "LSMinimumSystemVersion" with
            | Some x => x
            | None => VStr "10.9"
            end)).
Proof.
  do 4 (split; [reflexivity |]).
  intros info m Hrun Hload.
  destruct (extraction_fields _ _ _ _ Hrun Hload) as (Hn & _ & Hv & Ho).
  split; [| split].
  - intros He. rewrite Hn. apply pick_no_override. right. by rewrite He.
  - intros Hno. rewrite Hv. by apply pick_no_override.
  - intros Hno. rewrite Ho. by apply pick_no_override.
Qed.

Lemma empty_override_is_no_override_witness :
  app_version rectangle_info = VStr "0.55" ∧ app_min_os rectangle_info = VStr "10.9".
Proof.
  destruct (empty_override_is_no_override rectangle_world
              (with_app_version (Some EmptyString) rectangle_args))
    as (_ & _ & _ & _ & H).
  destruct (H rectangle_info
              (list_to_map [ ("CFBundleName", VStr "Rectangle");
                             ("CFBundleIdentifier", VStr "com.knollsoft.Rectangle");
                             ("CFBundleShortVersionString", VStr "0.55") ])
              ltac:(vm_compute; reflexivity) ltac:(reflexivity))
    as (_ & Hv & Hm).
  split.
  - apply Hv. by right.
  - apply Hm. by left.
Defined.

(** ** The documents *)

(** C8.  The full definition that [create_patch_definition] returns has
    the display name as its publisher when [--publisher] is absent, which
    is the empty text, and has exactly the override as its publisher when
    that is not empty. *)
Theorem publisher_is_override_or_display_name (w : world) (info : app_info)
    (patch : pyval) (a : Patchstarter.args) (doc : pyval) :
  result (Patchstarter.create_patch_definition w info patch a) = Returned doc →
  (Patchstarter.publisher a = EmptyString →
     field "publisher" doc = Some (VStr (app_name info)))
  ∧ (Patchstarter.publisher a ≠ EmptyString →
     field "publisher" doc = Some (VStr (Patchstarter.publisher a))).
Proof.
  intros H.
  destruct (Patchstarter.create_patch_definition w info patch a) as [t r] eqn:Hrun.
  cbn in H. subst r. apply create_patch_definition_returned in Hrun as [attrs ->].
  change (field "publisher" (Patchstarter.definition info patch a attrs))
    with (Some (VStr (if PyStr.truthy (Patchstarter.publisher a)
                      then Patchstarter.publisher a else app_name info))).
  split.
  - by intros ->.
  - intros Hne. by destruct (Patchstarter.publisher a).
Qed.

Lemma publisher_is_override_or_display_name_witness :
  field "publisher"
    (Patchstarter.definition rectangle_info (Patchstarter.create_patch rectangle_info)
       rectangle_args [])
  = Some (VStr "Rectangle").
Proof.
  exact (proj1 (publisher_is_override_or_display_name rectangle_world rectangle_info
                  (Patchstarter.create_patch rectangle_info) rectangle_args _ eq_refl)
           eq_refl).
Defined.

(** C10.  The two scripts agree: on every metadata record their
    [create_patch] return the same patch, and with no publisher override
    and no attachments [create_patch_definition] returns, without an
    event, the document that [TitleManager.create_full_definition]
    builds. *)
Theorem implementations_agree (info : app_info) :
  Patchstarter.create_patch info = TitleManager.create_patch info
  ∧ ∀ w patch a,
      Patchstarter.publisher a = EmptyString →
      Patchstarter.extension_attribute a = None
      ∨ Patchstarter.extension_attribute a = Some [] →
      Patchstarter.create_patch_definition w info patch a
      = ([], Returned (TitleManager.create_full_definition info patch)).
Proof.
  split; [reflexivity |].
  intros w patch a Hpub Hext. unfold Patchstarter.create_patch_definition.
  assert (Patchstarter.definition info patch a []
          = TitleManager.create_full_definition info patch) as <-.
  { unfold Patchstarter.definition, TitleManager.create_full_definition.
    by rewrite Hpub. }
  by destruct Hext as [-> | ->].
Qed.

Lemma implementations_agree_witness :
  Patchstarter.create_patch_definition rectangle_world rectangle_info
    (Patchstarter.create_patch rectangle_info) rectangle_args
  = ([], Returned (TitleManager.create_full_definition rectangle_info
                     (TitleManager.create_patch rectangle_info))).
Proof.
  destruct (implementations_agree rectangle_info) as [Hpatch Hfull].
  rewrite <- Hpatch. apply Hfull; [reflexivity | by left].
Defined.

(** ** Events of a run *)

Lemma trace_bind {A B} (m : prog A) (k : A → prog B) :
  trace (m ≫= k)
  = trace m ++ match result m with Returned x => trace (k x) | _ => [] end.
Proof.
  destruct m as [t [x | msg | e]]; unfold mbind, prog_bind, bind, trace, result;
    cbn [fst snd]; [by destruct (k x) | by rewrite app_nil_r ..].
Qed.

Lemma result_bind {A B} (m : prog A) (k : A → prog B) :
  result (m ≫= k)
  = match result m with
    | Returned x => result (k x)
    | SystemExit msg => SystemExit msg
    | Raised e => Raised e
    end.
Proof.
  destruct m as [t [x | msg | e]]; unfold mbind, prog_bind, bind, trace, result;
    cbn [fst snd]; [by destruct (k x) | done ..].
Qed.




Lemma load_plist_trace w p :
  trace (Patchstarter.load_plist w p)
  = if PyStr.has_char PyStr.nul p then [] else [EvOpenRead p].
Proof.
  destruct (manifest_failure w p) as [e |] eqn:Hf.
  - by rewrite (load_plist_failure _ _ _ Hf).
  - unfold manifest_failure in Hf.
    destruct (read_failure_or_content w p) as [(e0 & Hr & Hc) | (content & Hr & Hc)];
      rewrite Hr, ?Hc in Hf; [done |].
    unfold Patchstarter.load_plist.
    rewrite (bind_returned_l _ _ _ _ (read_binary_content _ _ _ Hc)).
    assert (PyStr.has_char PyStr.nul p = false) as ->.
    { unfold file_content in Hc. by destruct (PyStr.has_char PyStr.nul p). }
    unfold parse_plist. by destruct (plist_parse w content) as [[] |].
Qed.


(** ** Attachments *)

Section Attachments.
Variables (w : world) (info : app_info).

Lemma extension_entry_content p content :
  file_content w p = Some content →
  Patchstarter.extension_entry w info p
  = ([EvOpenRead p], Returned (expected_attribute info content)).
Proof.
  intros Hc. unfold Patchstarter.extension_entry.
  rewrite (bind_returned_l _ _ _ _ (read_binary_content _ _ _ Hc)).
  unfold expected_attribute. by rewrite PyStrFacts.replace_space_hyphen.
Qed.

Lemma extension_entry_failure p e :
  read_failure w p = Some e →
  Patchstarter.extension_entry w info p
  = (if PyStr.has_char PyStr.nul p then [] else [EvOpenRead p],
     attachment_failure e).
Proof.
  intros Hf. unfold Patchstarter.extension_entry, attachment_failure.
  rewrite (bind_raised_l _ _ _ _ (read_binary_failure _ _ _ Hf)).
  unfold try_except, sys_exit. destruct (is_oserror e); [| done].
  by rewrite app_nil_r.
Qed.


(** The loop stops at the first file that cannot be read. *)
Lemma extension_loop_failure ok contents p rest e attrs :
  all_readable w ok contents →
  read_failure w p = Some e →
  Patchstarter.extension_loop w info attrs (ok ++ p :: rest)
  = ((EvOpenRead <$> ok) ++ (if PyStr.has_char PyStr.nul p then [] else [EvOpenRead p]),
     attachment_failure e).
Proof.
  intros Hall Hf. revert attrs.
  induction Hall as [| q content ok contents Hc _ IH]; intros attrs.
  - cbn [app Patchstarter.extension_loop fmap list_fmap].
    pose proof (extension_entry_failure _ _ Hf) as He.
    unfold attachment_failure in *. destruct (is_oserror e).
    + by rewrite (bind_sys_exit_l _ _ _ _ He).
    + by rewrite (bind_raised_l _ _ _ _ He).
  - cbn [app Patchstarter.extension_loop].
    rewrite (bind_returned_l _ _ _ _ (extension_entry_content _ _ Hc)), IH.
    reflexivity.
Qed.




End Attachments.

Lemma create_patch_definition_loop w info patch a paths :
  Patchstarter.extension_attribute a = Some paths →
  Patchstarter.create_patch_definition w info patch a
  = (attrs ← Patchstarter.extension_loop w info [] paths;
     ret (Patchstarter.definition info patch a attrs)).
Proof.
  intros H. unfold Patchstarter.create_patch_definition. rewrite H.
  destruct paths; [| done]. cbn [Patchstarter.extension_loop]. by rewrite bind_ret_l.
Qed.




(** ** All or nothing *)






(** ** The two modes *)







(** * Beyond the claims *)

(** ** What extraction touches *)

Lemma open_read_at_most (b : bool) p :
  opens_at_most p (if b then [] else [EvOpenRead p]).
Proof. destruct b; [by left | by right]. Qed.

Lemma py_or_trace o (b : prog pyval) : trace b = [] → trace (py_or o b) = [].
Proof. intros H. unfold py_or. destruct o as [s |]; [| done]. by destruct (PyStr.truthy s). Qed.

Lemma plist_get_trace root key dflt : trace (plist_get root key dflt) = [].
Proof. by destruct root. Qed.

Lemma call_replace_trace v old new : trace (call_replace v old new) = [].
Proof. by destruct v. Qed.

Lemma timestamp_of_trace w p : trace (timestamp_of w p) = [].
Proof. unfold timestamp_of. by destruct (mtime_utc w p). Qed.

(** A sequence of steps without events has no events. *)
Lemma trace_bind_nil {A B} (m : prog A) (k : A → prog B) :
  trace m = [] → (∀ x, trace (k x) = []) → trace (m ≫= k) = [].
Proof.
  intros Hm Hk. rewrite trace_bind, Hm. destruct (result m); [apply Hk | done ..].
Qed.

Ltac no_events :=
  repeat first
    [ apply trace_bind_nil; [| intros ? ]
    | apply py_or_trace
    | apply plist_get_trace
    | apply call_replace_trace
    | apply timestamp_of_trace
    | reflexivity
    | match goal with |- trace (let '(_, _) := ?x in _) = [] => destruct x end ].

Lemma get_app_info_trace w a :
  trace (Patchstarter.get_app_info w a)
  = trace (Patchstarter.load_plist w (manifest_path (Patchstarter.path a))).
Proof.
  unfold Patchstarter.get_app_info.
  change (OsPath.join (Patchstarter.path a) ["Contents"; "Info.plist"])
    with (manifest_path (Patchstarter.path a)).
  rewrite trace_bind.
  destruct (result (Patchstarter.load_plist w (manifest_path (Patchstarter.path a))))
    as [root | msg | e]; [| by rewrite app_nil_r ..].
  rewrite <- (app_nil_r (trace (Patchstarter.load_plist _ _))) at 2. f_equal.
  no_events.
Qed.

Lemma title_manager_load_plist_trace w self :
  trace (TitleManager.load_plist w self)
  = if PyStr.has_char PyStr.nul (manifest_path (TitleManager.app_path self)) then []
    else [EvOpenRead (manifest_path (TitleManager.app_path self))].
Proof.
  destruct (manifest_failure w (manifest_path (TitleManager.app_path self)))
    as [e |] eqn:Hf.
  - by rewrite (title_manager_load_plist_failure _ _ _ Hf).
  - unfold manifest_failure in Hf.
    destruct (read_failure_or_content w (manifest_path (TitleManager.app_path self)))
      as [(e0 & Hr & Hc) | (content & Hr & Hc)]; rewrite Hr, ?Hc in Hf; [done |].
    unfold TitleManager.load_plist.
    change (OsPath.join (TitleManager.app_path self) ["Contents"; "Info.plist"])
      with (manifest_path (TitleManager.app_path self)).
    rewrite (bind_returned_l _ _ _ _ (read_binary_content _ _ _ Hc)).
    assert (PyStr.has_char PyStr.nul (manifest_path (TitleManager.app_path self)) = false)
      as ->.
    { unfold file_content in Hc. by destruct (PyStr.has_char PyStr.nul _). }
    unfold parse_plist. by destruct (plist_parse w content) as [[] |].
Qed.

Lemma extract_app_info_trace w self :
  trace (TitleManager.extract_app_info w self) = trace (TitleManager.load_plist w self).
Proof.
  unfold TitleManager.extract_app_info. rewrite trace_bind.
  destruct (result (TitleManager.load_plist w self)) as [root | msg | e];
    [| by rewrite app_nil_r ..].
  rewrite <- (app_nil_r (trace (TitleManager.load_plist _ _))) at 2. f_equal.
  no_events.
Qed.

(** X1.  However extraction ends, in either script, all it did that can be
    seen is to open the manifest of the bundle for reading, at most once:
    it opens no other file, writes nothing and prints nothing.  The same
    holds for [TitleManager.generate], which only returns its document. *)
Theorem extraction_only_opens_manifest (w : world) :
  (∀ a, opens_at_most (manifest_path (Patchstarter.path a))
          (trace (Patchstarter.get_app_info w a)))
  ∧ (∀ self, opens_at_most (manifest_path (TitleManager.app_path self))
               (trace (TitleManager.extract_app_info w self)))
  ∧ (∀ self pretty_print,
       opens_at_most (manifest_path (TitleManager.app_path self))
         (trace (TitleManager.generate w self pretty_print))).
Proof.
  split; [| split].
  - intros a. rewrite get_app_info_trace, load_plist_trace. apply open_read_at_most.
  - intros self. rewrite extract_app_info_trace, title_manager_load_plist_trace.
    apply open_read_at_most.
  - intros self pp.
    assert (trace (TitleManager.generate w self pp)
            = trace (TitleManager.extract_app_info w self)) as ->.
    { unfold TitleManager.generate. rewrite trace_bind.
      destruct (result (TitleManager.extract_app_info w self)) as [info | |];
        [| by rewrite app_nil_r ..].
      cbn zeta. destruct pp; [destruct (first_unserializable _) |]; by rewrite app_nil_r. }
    rewrite extract_app_info_trace, title_manager_load_plist_trace.
    apply open_read_at_most.
Qed.

(** ** Manifests of an unexpected shape *)

Lemma load_plist_parsed w p content v :
  file_content w p = Some content →
  plist_parse w content = inl v →
  Patchstarter.load_plist w p
  = ([EvOpenRead p],
     Returned match v with
              | VDict d => RootDict (list_to_map d)
              | _ => RootOther v
              end).
Proof.
  intros Hc Hv. unfold Patchstarter.load_plist.
  rewrite (bind_returned_l _ _ _ _ (read_binary_content _ _ _ Hc)).
  unfold parse_plist. rewrite Hv. by destruct v.
Qed.

Lemma get_app_info_other_root w a t v :
  Patchstarter.load_plist w (manifest_path (Patchstarter.path a))
    = (t, Returned (RootOther v)) →
  Patchstarter.get_app_info w a
  = (t, Raised (PyExc AttributeError
                  ("'" +:+ type_name v +:+ "' object has no attribute 'get'"))).
Proof.
  intros Hload. unfold Patchstarter.get_app_info.
  change (OsPath.join (Patchstarter.path a) ["Contents"; "Info.plist"])
    with (manifest_path (Patchstarter.path a)).
  rewrite (bind_returned_l _ _ _ _ Hload).
  unfold py_or. destruct (PyStr.truthy (Patchstarter.name a)) eqn:Hname.
  - rewrite bind_ret_l. unfold call_replace. rewrite bind_ret_l.
    unfold plist_get, raise, mbind, prog_bind, bind, trace, result.
    cbn [fst snd]. by rewrite app_nil_r.
  - unfold plist_get, raise, mbind, prog_bind, bind, trace, result.
    cbn [fst snd]. by rewrite app_nil_r.
Qed.

(** X2.  A manifest that parses, but whose top-level value is not a
    dictionary, is not reported like an unreadable manifest: the run ends
    with an uncaught [AttributeError] for the missing [get], whatever the
    overrides are, with a non-zero exit status and without giving
    anything out. *)
Theorem non_dict_manifest_is_attribute_error (w : world) (a : Patchstarter.args)
    (content : list Byte.byte) (v : pyval) :
  file_content w (manifest_path (Patchstarter.path a)) = Some content →
  plist_parse w content = inl v →
  (∀ d, v ≠ VDict d) →
  Patchstarter.main w a
  = ([EvOpenRead (manifest_path (Patchstarter.path a))],
     Raised (PyExc AttributeError
               ("'" +:+ type_name v +:+ "' object has no attribute 'get'")))
  ∧ exit_status (result (Patchstarter.main w a)) ≠ 0%Z
  ∧ emitted_docs (trace (Patchstarter.main w a)) = [].
Proof.
  intros Hc Hv Hnd.
  pose proof (load_plist_parsed _ _ _ _ Hc Hv) as Hload.
  assert (match v with
          | VDict d => RootDict (list_to_map d)
          | _ => RootOther v
          end = RootOther v) as Hroot by (destruct v; try done; by destruct (Hnd d)).
  rewrite Hroot in Hload.
  assert (Patchstarter.main w a
          = ([EvOpenRead (manifest_path (Patchstarter.path a))],
             Raised (PyExc AttributeError
                       ("'" +:+ type_name v +:+ "' object has no attribute 'get'"))))
    as Hmain.
  { unfold Patchstarter.main.
    by rewrite (bind_raised_l _ _ _ _ (get_app_info_other_root _ _ _ _ Hload)). }
  rewrite Hmain. by repeat split.
Qed.

Lemma non_dict_manifest_is_attribute_error_witness :
  result (Patchstarter.main (manifest_world array_manifest)
            (with_name "Rectangle" rectangle_args))
  = Raised (PyExc AttributeError "'list' object has no attribute 'get'").
Proof.
  destruct (non_dict_manifest_is_attribute_error (manifest_world array_manifest)
              (with_name "Rectangle" rectangle_args) [Byte.x01] array_manifest
              eq_refl eq_refl ltac:(discriminate)) as (Hmain & _).
  by rewrite Hmain.
Defined.

Lemma call_replace_non_str v old new :
  is_str v = false → call_replace v old new = raise (replace_error v).
Proof. by destruct v. Qed.

(** X3.  The manifest's name is looked at only when there is no name
    override.  With an override that is not empty extraction returns a
    record under that name whatever the manifest declares as its name,
    text or not; without one, a declared name that is not text ends
    extraction with the uncaught exception of calling [replace] on it. *)
Theorem name_override_shields_manifest_name (w : world) (a : Patchstarter.args)
    (t : list event) (m : gmap string pyval) :
  Patchstarter.load_plist w (manifest_path (Patchstarter.path a))
    = (t, Returned (RootDict m)) →
  (Patchstarter.name a ≠ EmptyString →
     ∀ d, mtime_utc w (Patchstarter.path a) = inl d →
       ∃ info, Patchstarter.get_app_info w a = (t, Returned info)
               ∧ app_name info = Patchstarter.name a
               ∧ app_id info = remove_spaces (Patchstarter.name a))
  ∧ (Patchstarter.name a = EmptyString →
       ∀ v, m !! "CFBundleName" = Some v → is_str v = false →
         Patchstarter.get_app_info w a = (t, Raised (replace_error v))).
Proof.
  intros Hload. split.
  - intros Hname d Hd.
    pose proof (get_app_info_returns w a t m d (Patchstarter.name a) Hload Hd
                  (pick_supplied _ _ _ Hname)) as Hrun.
    eexists. split; [exact Hrun |]. split; [reflexivity |].
    apply PyStrFacts.replace_space_remove.
  - intros Hname v Hv Hns. unfold Patchstarter.get_app_info.
    change (OsPath.join (Patchstarter.path a) ["Contents"; "Info.plist"])
      with (manifest_path (Patchstarter.path a)).
    rewrite (bind_returned_l _ _ _ _ Hload), !py_or_plist_get, !plist_get_dict.
    rewrite bind_ret_l, Hname, Hv. change (pick (Some EmptyString) (Some v) _) with v.
    rewrite (call_replace_non_str _ _ _ Hns).
    unfold raise, mbind, prog_bind, bind, trace, result. cbn [fst snd].
    by rewrite app_nil_r.
Qed.

Lemma name_override_shields_manifest_name_witness :
  (∃ info, Patchstarter.get_app_info (manifest_world numeric_name_manifest)
             (with_name "My App" rectangle_args)
           = ([EvOpenRead "/Applications/Rectangle.app/Contents/Info.plist"], Returned info)
           ∧ app_id info = remove_spaces "My App")
  ∧ Patchstarter.get_app_info (manifest_world numeric_name_manifest) rectangle_args
    = ([EvOpenRead "/Applications/Rectangle.app/Contents/Info.plist"],
       Raised (PyExc AttributeError "'int' object has no attribute 'replace'")).
Proof.
  split.
  - destruct (name_override_shields_manifest_name (manifest_world numeric_name_manifest)
                (with_name "My App" rectangle_args)
                [EvOpenRead "/Applications/Rectangle.app/Contents/Info.plist"]
                (list_to_map [ ("CFBundleName", VInt 7);
                               ("CFBundleIdentifier", VStr "com.knollsoft.Rectangle") ])
                eq_refl) as [Hover _].
    destruct (Hover ltac:(discriminate) _ eq_refl) as (info & Hrun & _ & Hid).
    exists info. by split.
  - destruct (name_override_shields_manifest_name (manifest_world numeric_name_manifest)
                rectangle_args
                [EvOpenRead "/Applications/Rectangle.app/Contents/Info.plist"]
                (list_to_map [ ("CFBundleName", VInt 7);
                               ("CFBundleIdentifier", VStr "com.knollsoft.Rectangle") ])
                eq_refl) as [_ Hnone].
    exact (Hnone eq_refl (VInt 7) eq_refl eq_refl).
Defined.

(** ** More on strings and paths *)

Module PyStrMore.
Import PyStr.

Lemma has_char_app ch (a b : string) :
  has_char ch (a +:+ b) = has_char ch a || has_char ch b.
Proof.
  induction a as [| c a IH]; [done |].
  change (has_char ch (String c a +:+ b))
    with (Ascii.eqb ch c || has_char ch (a +:+ b)).
  rewrite IH. cbn [has_char]. by rewrite orb_assoc.
Qed.

Lemma has_char_tail ch c s : has_char ch (String c s) = false → has_char ch s = false.
Proof. cbn [has_char]. by intros [_ H]%orb_false_elim. Qed.

Lemma has_char_head ch c s : has_char ch (String c s) = false → Ascii.eqb ch c = false.
Proof. cbn [has_char]. by intros [H _]%orb_false_elim. Qed.

(** Replacing puts no character into a text that neither the text nor the
    replacement has. *)
Lemma replace_from_keeps_out ch old new k s :
  has_char ch new = false → has_char ch s = false →
  has_char ch (replace_from old new k s) = false.
Proof.
  intros Hnew. revert k. induction s as [| c s IH]; intros k Hs; [done |].
  pose proof (has_char_tail _ _ _ Hs) as Hs'.
  cbn [replace_from]. destruct k as [| k]; [| by apply IH].
  destruct (String.prefix old (String c s)).
  - rewrite has_char_app, Hnew. by apply IH.
  - cbn [has_char]. rewrite (has_char_head _ _ _ Hs). by apply IH.
Qed.

Lemma replace_keeps_out ch old new s :
  old ≠ EmptyString → has_char ch new = false → has_char ch s = false →
  has_char ch (replace old new s) = false.
Proof.
  intros Hold Hnew Hs. unfold replace. destruct old; [done |].
  by apply replace_from_keeps_out.
Qed.

Lemma remove_spaces_keeps_out ch s :
  has_char ch s = false → has_char ch (remove_spaces s) = false.
Proof.
  induction s as [| c s IH]; [done |]. intros Hs.
  pose proof (has_char_tail _ _ _ Hs) as Hs'. cbn [remove_spaces].
  destruct (Ascii.eqb c space); [by apply IH |].
  cbn [has_char]. rewrite (has_char_head _ _ _ Hs). by apply IH.
Qed.

Lemma remove_spaces_fixed s : remove_spaces s = s ↔ has_char space s = false.
Proof.
  split.
  - intros H. rewrite <- H. apply PyStrFacts.remove_spaces_no_space.
  - induction s as [| c s IH]; [done |]. intros Hs. cbn [remove_spaces].
    rewrite Ascii.eqb_sym, (has_char_head _ _ _ Hs).
    by rewrite (IH (has_char_tail _ _ _ Hs)).
Qed.

Lemma remove_spaces_length s : (String.length (remove_spaces s) ≤ String.length s)%nat.
Proof.
  induction s as [| c s IH]; [done |]. cbn [remove_spaces].
  destruct (Ascii.eqb c space); cbn [String.length]; lia.
Qed.

(** A text that ends in a given character still does when something is
    put in front, and only the end decides. *)
Lemma endswith_char_app c (a b : string) :
  b ≠ EmptyString → endswith (str1 c) (a +:+ b) = endswith (str1 c) b.
Proof.
  intros Hb. induction a as [| d a IH]; [done |].
  change (endswith (str1 c) (String d a +:+ b))
    with (String.eqb (str1 c) (String d (a +:+ b)) || endswith (str1 c) (a +:+ b)).
  rewrite IH.
  assert (String.eqb (str1 c) (String d (a +:+ b)) = false) as ->; [| done].
  apply String.eqb_neq. unfold str1. intros [= _ H].
  destruct a; [by destruct b | discriminate H].
Qed.

End PyStrMore.

Module OsPathFacts.
Import OsPath.

Lemma after_last_slash_spec p :
  match after_last_slash p with
  | Some t => PyStr.has_char PyStr.slash t = false
  | None => PyStr.has_char PyStr.slash p = false
  end.
Proof.
  induction p as [| c p IH]; [done |]. cbn [after_last_slash].
  destruct (after_last_slash p) as [t |]; [exact IH |].
  destruct (Ascii.eqb c PyStr.slash) eqn:Hc; [exact IH |].
  cbn [PyStr.has_char]. by rewrite Ascii.eqb_sym, Hc, IH.
Qed.

(** The last component of a path has no slash. *)
Lemma basename_no_slash p : PyStr.has_char PyStr.slash (basename p) = false.
Proof.
  unfold basename. pose proof (after_last_slash_spec p) as H.
  by destruct (after_last_slash p).
Qed.



End OsPathFacts.

(** X4.  The identity slug of an extracted record is the display name
    itself exactly when the display name has no space, and is never
    longer than the display name. *)
Theorem slug_is_name_iff_no_space (info : app_info) :
  extracted info →
  (app_id info = app_name info ↔ PyStr.has_char PyStr.space (app_name info) = false)
  ∧ (String.length (app_id info) ≤ String.length (app_name info))%nat.
Proof.
  intros Hex. rewrite (extracted_app_id _ Hex), PyStrFacts.replace_space_remove.
  split; [apply PyStrMore.remove_spaces_fixed | apply PyStrMore.remove_spaces_length].
Qed.

Lemma slug_is_name_iff_no_space_witness :
  app_id rectangle_info = app_name rectangle_info.
Proof.
  destruct (slug_is_name_iff_no_space rectangle_info rectangle_extracted) as [[_ H] _].
  apply H. reflexivity.
Defined.

(** X5.  When neither the command line nor the manifest names the
    application, the name and the slug come from the last component of the
    bundle path and so hold no slash, whatever the path is. *)
Theorem fallback_name_has_no_slash (w : world) (a : Patchstarter.args)
    (info : app_info) (m : gmap string pyval) :
  result (Patchstarter.get_app_info w a) = Returned info →
  result (Patchstarter.load_plist w (manifest_path (Patchstarter.path a)))
    = Returned (RootDict m) →
  Patchstarter.name a = EmptyString →
  m !! "CFBundleName" = None →
  app_name info
    = PyStr.replace ".app" EmptyString (OsPath.basename (Patchstarter.path a))
  ∧ PyStr.has_char PyStr.slash (app_name info) = false
  ∧ PyStr.has_char PyStr.slash (app_id info) = false.
Proof.
  intros Hrun Hload Hname Hm.
  destruct (extraction_fields _ _ _ _ Hrun Hload) as (Hn & _).
  rewrite Hname, Hm in Hn. injection Hn as Hn.
  assert (PyStr.has_char PyStr.slash (app_name info) = false) as Hslash.
  { rewrite Hn. apply PyStrMore.replace_from_keeps_out; [done |].
    apply OsPathFacts.basename_no_slash. }
  split; [exact Hn |]. split; [exact Hslash |].
  assert (extracted info) as Hex by (left; by exists w, a).
  rewrite (extracted_app_id _ Hex), PyStrFacts.replace_space_remove.
  by apply PyStrMore.remove_spaces_keeps_out.
Qed.

Lemma fallback_name_has_no_slash_witness :
  ∃ info,
    result (Patchstarter.get_app_info (manifest_world nameless_manifest)
              rectangle_args) = Returned info
    ∧ app_name info = "Rectangle"
    ∧ PyStr.has_char PyStr.slash (app_id info) = false.
Proof.
  eexists. split; [vm_compute; reflexivity |].
  destruct (fallback_name_has_no_slash (manifest_world nameless_manifest)
              rectangle_args _
              (list_to_map [ ("CFBundleIdentifier", VStr "com.knollsoft.Rectangle") ])
              ltac:(vm_compute; reflexivity))
    as (Hn & _ & Hid); [reflexivity | reflexivity | reflexivity |].
  split; [exact Hn | exact Hid].
Defined.

(** ** Where the document goes *)





(** X7.  The manifest that is read is [Contents/Info.plist] under the
    bundle path, with exactly one slash between the two whether or not
    the path ends in one; for the empty bundle path it is the relative
    path [Contents/Info.plist]. *)
Theorem manifest_path_shape (bundle : string) :
  (bundle = EmptyString → manifest_path bundle = "Contents/Info.plist")
  ∧ (bundle ≠ EmptyString →
       manifest_path bundle = under_directory bundle "Contents/Info.plist").
Proof.
  split; [by intros -> |]. intros Hb.
  unfold manifest_path, OsPath.join, under_directory. cbn [fold_left].
  assert (∀ x, OsPath.join_step (x +:+ "Contents") "Info.plist"
               = x +:+ "Contents/Info.plist") as Hstep.
  { intros x. unfold OsPath.join_step.
    change (PyStr.startswith "/" "Info.plist") with false. cbn iota.
    change "/" with (PyStr.str1 PyStr.slash).
    rewrite (PyStrMore.endswith_char_app PyStr.slash x "Contents") by done.
    change (PyStr.endswith (PyStr.str1 PyStr.slash) "Contents") with false.
    rewrite orb_false_r.
    assert (PyStr.truthy (x +:+ "Contents") = true) as -> by (by destruct x).
    cbn [negb]. rewrite PyStrFacts.append_assoc. reflexivity. }
  unfold OsPath.join_step at 2.
  change (PyStr.startswith "/" "Contents") with false. cbn iota.
  assert (PyStr.truthy bundle = true) as -> by (by destruct bundle).
  cbn [negb orb].
  destruct (PyStr.endswith "/" bundle); [apply Hstep |].
  rewrite <- PyStrFacts.append_assoc, Hstep.
  rewrite PyStrFacts.append_assoc. reflexivity.
Qed.

Lemma manifest_path_shape_witness :
  manifest_path "/Applications/Rectangle.app/"
  = "/Applications/Rectangle.app/Contents/Info.plist"
  ∧ manifest_path "/Applications/Rectangle.app"
    = "/Applications/Rectangle.app/Contents/Info.plist".
Proof.
  split.
  - exact (proj2 (manifest_path_shape "/Applications/Rectangle.app/") ltac:(discriminate)).
  - exact (proj2 (manifest_path_shape "/Applications/Rectangle.app") ltac:(discriminate)).
Defined.

(** ** What the modes read *)

(** X8.  In patch-only mode the publisher and the attachments of the
    command line play no part: the run is the same, event for event,
    whatever they are, so that not even an attachment that cannot be read
    is noticed. *)
Theorem patch_only_ignores_publisher_and_attachments (w : world)
    (a : Patchstarter.args) (pub : string) (ext : option (list string)) :
  Patchstarter.patch_only a = true →
  Patchstarter.main w (with_publisher_and_attachments pub ext a)
  = Patchstarter.main w a.
Proof.
  intros Hmode. unfold Patchstarter.main.
  change (Patchstarter.get_app_info w (with_publisher_and_attachments pub ext a))
    with (Patchstarter.get_app_info w a).
  change (Patchstarter.patch_only (with_publisher_and_attachments pub ext a))
    with (Patchstarter.patch_only a).
  rewrite Hmode. reflexivity.
Qed.

Lemma patch_only_ignores_publisher_and_attachments_witness :
  Patchstarter.main rectangle_world
    (with_publisher_and_attachments "ACME" (Some ["absent.sh"])
       (with_patch_only true rectangle_args))
  = Patchstarter.main rectangle_world (with_patch_only true rectangle_args).
Proof.
  exact (patch_only_ignores_publisher_and_attachments rectangle_world
           (with_patch_only true rectangle_args) "ACME" (Some ["absent.sh"]) eq_refl).
Defined.

Section AttachmentsMore.
Variables (w : world) (info : app_info).

(** The loop returns only when every file could be read. *)
Lemma extension_loop_returned paths attrs t out :
  Patchstarter.extension_loop w info attrs paths = (t, Returned out) →
  ∃ contents,
    all_readable w paths contents
    ∧ out = attrs ++ (expected_attribute info <$> contents)
    ∧ t = EvOpenRead <$> paths.
Proof.
  revert attrs t. induction paths as [| p paths IH]; intros attrs t H.
  - injection H as <- <-. exists []. split; [constructor |]. by rewrite app_nil_r.
  - cbn [Patchstarter.extension_loop] in H.
    destruct (read_failure_or_content w p) as [(e & Hr & _) | (content & _ & Hc)].
    + pose proof (extension_entry_failure w info _ _ Hr) as He.
      unfold attachment_failure in He. destruct (is_oserror e).
      * by rewrite (bind_sys_exit_l _ _ _ _ He) in H.
      * by rewrite (bind_raised_l _ _ _ _ He) in H.
    + rewrite (bind_returned_l _ _ _ _ (extension_entry_content w info _ _ Hc)) in H.
      destruct (Patchstarter.extension_loop w info
                  (attrs ++ [expected_attribute info content]) paths)
        as [t' r] eqn:Hloop.
      cbn [trace result fst snd] in H. injection H as <- ->.
      destruct (IH _ _ Hloop) as (contents & Hall & -> & ->).
      exists (content :: contents). split; [by constructor |].
      split; [by rewrite <- app_assoc | done].
Qed.

End AttachmentsMore.

(** X9.  [create_patch_definition] returns a document only when every
    attachment of the command line could be read: it has then opened each
    path once, in the order of the command line, and the document has one
    extension attribute per path, built from the bytes of that file. *)
Theorem definition_returned_only_if_all_read (w : world) (info : app_info)
    (patch : pyval) (a : Patchstarter.args) (paths : list string)
    (t : list event) (doc : pyval) :
  Patchstarter.extension_attribute a = Some paths →
  Patchstarter.create_patch_definition w info patch a = (t, Returned doc) →
  ∃ contents,
    all_readable w paths contents
    ∧ t = EvOpenRead <$> paths
    ∧ doc = Patchstarter.definition info patch a (expected_attribute info <$> contents)
    ∧ length contents = length paths.
Proof.
  intros Hext Hrun. rewrite (create_patch_definition_loop _ _ _ _ _ Hext) in Hrun.
  apply bind_returned_inv in Hrun as (t1 & attrs & t2 & Hloop & [= <- <-] & ->).
  apply extension_loop_returned in Hloop as (contents & Hall & -> & ->).
  exists contents. split; [exact Hall |]. split; [by rewrite app_nil_r |].
  split; [reflexivity |]. symmetry. exact (Forall2_length _ _ _ Hall).
Qed.

Lemma definition_returned_only_if_all_read_witness :
  ∃ contents,
    all_readable rectangle_world ["inventory.sh"; "inventory.sh"] contents
    ∧ length contents = 2.
Proof.
  destruct (definition_returned_only_if_all_read rectangle_world rectangle_info
              (Patchstarter.create_patch rectangle_info) twice_attachment_args
              ["inventory.sh"; "inventory.sh"] _ _ eq_refl
              ltac:(vm_compute; reflexivity))
    as (contents & Hall & _ & _ & Hlen).
  exists contents. by split.
Defined.

(** X10.  After the first attachment that cannot be read no later one is
    opened: the run has opened the manifest, the attachments before the
    failing one, each once and in order, and the failing one unless its
    path is refused before any file is touched. *)
Theorem no_attachment_opened_after_failure (w : world) (a : Patchstarter.args)
    (info : app_info) (t : list event) (ok : list string)
    (contents : list (list Byte.byte)) (p : string) (rest : list string)
    (e : py_exception) :
  Patchstarter.get_app_info w a = (t, Returned info) →
  Patchstarter.patch_only a = false →
  Patchstarter.extension_attribute a = Some (ok ++ p :: rest) →
  all_readable w ok contents →
  read_failure w p = Some e →
  trace (Patchstarter.main w a)
  = t ++ (EvOpenRead <$> ok)
      ++ (if PyStr.has_char PyStr.nul p then [] else [EvOpenRead p]).
Proof.
  intros Hinfo Hmode Hext Hall Hfail. unfold Patchstarter.main.
  rewrite (bind_returned_l _ _ _ _ Hinfo). cbn [trace fst]. f_equal.
  rewrite Hmode, trace_bind, (create_patch_definition_loop _ _ _ _ _ Hext).
  pose proof (extension_loop_failure w info ok contents p rest e [] Hall Hfail) as Hloop.
  unfold attachment_failure in Hloop. destruct (is_oserror e).
  - rewrite (bind_sys_exit_l _ _ _ _ Hloop). cbn [trace result fst snd].
    by rewrite app_nil_r.
  - rewrite (bind_raised_l _ _ _ _ Hloop). cbn [trace result fst snd].
    by rewrite app_nil_r.
Qed.

Lemma no_attachment_opened_after_failure_witness :
  trace (Patchstarter.main rectangle_world
           (with_publisher_and_attachments EmptyString
              (Some ["inventory.sh"; "broken.sh"; "inventory.sh"]) rectangle_args))
  = [ EvOpenRead "/Applications/Rectangle.app/Contents/Info.plist";
      EvOpenRead "inventory.sh"; EvOpenRead "broken.sh" ].
Proof.
  exact (no_attachment_opened_after_failure rectangle_world
           (with_publisher_and_attachments EmptyString
              (Some ["inventory.sh"; "broken.sh"; "inventory.sh"]) rectangle_args)
           rectangle_info
           [EvOpenRead "/Applications/Rectangle.app/Contents/Info.plist"]
           ["inventory.sh"] [[Byte.x4d; Byte.x61]] "broken.sh" ["inventory.sh"]
           (os_error 5 "Input/output error" None)
           ltac:(vm_compute; reflexivity) eq_refl eq_refl
           ltac:(repeat constructor) eq_refl).
Defined.

(** ** Runs that reach the output *)











(** ** The two scripts on one bundle *)

Lemma patchstarter_load_returned w p t root :
  Patchstarter.load_plist w p = (t, Returned root)
  ↔ (content ← read_binary w p; parse_plist w content) = (t, Returned root).
Proof.
  unfold Patchstarter.load_plist, try_except.
  destruct (content ← read_binary w p; parse_plist w content) as [t0 [r | msg | e]];
    [done | done |].
  cbn. split; intros H; discriminate H.
Qed.

Lemma title_manager_load_returned w self t root :
  TitleManager.load_plist w self = (t, Returned root)
  ↔ (content ← read_binary w (manifest_path (TitleManager.app_path self));
     parse_plist w content) = (t, Returned root).
Proof.
  unfold TitleManager.load_plist, try_except.
  change (OsPath.join (TitleManager.app_path self) ["Contents"; "Info.plist"])
    with (manifest_path (TitleManager.app_path self)).
  destruct (content ← read_binary w (manifest_path (TitleManager.app_path self));
            parse_plist w content) as [t0 [r | msg | e]]; [done | done |].
  cbn. split; intros H; discriminate H.
Qed.

Lemma title_manager_extract_returns w self t m d nm :
  TitleManager.load_plist w self = (t, Returned (RootDict m)) →
  mtime_utc w (TitleManager.app_path self) = inl d →
  pick None (m !! "CFBundleName") (default_name (TitleManager.app_path self)) = VStr nm →
  TitleManager.extract_app_info w self =
    (t, Returned
          {| app_name := nm;
             app_id := PyStr.replace " " EmptyString nm;
             app_bundle_id := pick None (m !! "CFBundleIdentifier") (VStr "unknown.bundle.id");
             app_version := pick None (m !! "CFBundleShortVersionString") (VStr "0.0.0");
             app_min_os := pick None (m !! "LSMinimumSystemVersion") (VStr "10.9");
             app_last_modified := isoformat (now_utc w) +:+ "Z";
             app_timestamp := isoformat d +:+ "Z" |}).
Proof.
  intros Hload Hd Hname. unfold TitleManager.extract_app_info.
  change (VStr (PyStr.replace ".app" EmptyString
                  (OsPath.basename (TitleManager.app_path self))))
    with (default_name (TitleManager.app_path self)).
  rewrite (bind_returned_l _ _ _ _ Hload).
  rewrite !plist_get_dict, bind_ret_l, Hname.
  unfold call_replace, timestamp_of. rewrite !bind_ret_l, Hd, bind_ret_l.
  unfold trace, result, ret. by rewrite app_nil_r.
Qed.

Lemma extraction_agrees w a self t info :
  plain_args_for self a →
  Patchstarter.get_app_info w a = (t, Returned info)
  ↔ TitleManager.extract_app_info w self = (t, Returned info).
Proof.
  intros (Hpath & Hname & Hv & Ho). split; intros H.
  - apply get_app_info_returned in H as (m & d & Hload & Hd & Hn & Hinfo).
    rewrite Hpath in Hload, Hd, Hn.
    apply patchstarter_load_returned, title_manager_load_returned in Hload.
    rewrite Hname in Hn. change (pick (Some EmptyString)) with (pick None) in Hn.
    rewrite (title_manager_extract_returns _ _ _ _ _ _ Hload Hd Hn).
    rewrite Hinfo at 3. rewrite !(pick_no_override _ _ _ Hv), !(pick_no_override _ _ _ Ho).
    reflexivity.
  - apply title_manager_extract_returned in H as (m & d & Hload & Hd & Hn & Hinfo).
    rewrite <- Hpath in Hd, Hn.
    apply title_manager_load_returned in Hload. rewrite <- Hpath in Hload.
    apply patchstarter_load_returned in Hload.
    assert (pick (Some (Patchstarter.name a)) (m !! "CFBundleName")
              (default_name (Patchstarter.path a)) = VStr (app_name info)) as Hn'
      by (by rewrite Hname).
    rewrite (get_app_info_returns _ _ _ _ _ _ Hload Hd Hn').
    rewrite Hinfo at 3. rewrite !(pick_no_override _ _ _ Hv), !(pick_no_override _ _ _ Ho).
    reflexivity.
Qed.

(** X13.  On one bundle the two scripts extract the same: for a command
    line of [patchstarter.py] that gives the bundle path of the manager
    and no name or version override, [get_app_info] returns a record
    exactly when [TitleManager.extract_app_info] returns it, after the
    same events. *)
Theorem extraction_agrees_across_scripts (w : world) (a : Patchstarter.args)
    (self : TitleManager.t) :
  plain_args_for self a →
  ∀ t info,
    Patchstarter.get_app_info w a = (t, Returned info)
    ↔ TitleManager.extract_app_info w self = (t, Returned info).
Proof. intros Hplain t info. by apply extraction_agrees. Qed.

Lemma extraction_agrees_across_scripts_witness :
  TitleManager.extract_app_info rectangle_world rectangle_manager
  = ([EvOpenRead "/Applications/Rectangle.app/Contents/Info.plist"],
     Returned rectangle_info).
Proof.
  apply (extraction_agrees_across_scripts rectangle_world rectangle_args
           rectangle_manager).
  - repeat split; by left.
  - vm_compute. reflexivity.
Defined.

(** ** Finding the application *)

Module RstripFacts.
Import PyStr.

(** A tail that is stripped whole does not protect what is before it. *)
Lemma rstrip_app chars s t :
  rstrip chars t = EmptyString → rstrip chars (s +:+ t) = rstrip chars s.
Proof.
  intros Ht. induction s as [| c s IH]; [exact Ht |].
  change (String c s +:+ t) with (String c (s +:+ t)).
  cbn [rstrip]. by rewrite IH.
Qed.

(** A text that ends in a character outside the set is kept whole. *)
Lemma rstrip_kept chars s c :
  has_char c chars = false → rstrip chars (s +:+ str1 c) = s +:+ str1 c.
Proof.
  intros Hc. induction s as [| d s IH].
  - change (rstrip chars (EmptyString +:+ str1 c))
      with (if has_char c chars then EmptyString else str1 c).
    by rewrite Hc.
  - change (String d s +:+ str1 c) with (String d (s +:+ str1 c)).
    cbn [rstrip]. rewrite IH. by destruct s.
Qed.

(** A last character of the set is stripped, and stripping goes on. *)
Lemma rstrip_last chars s c :
  has_char c chars = true → rstrip chars (s +:+ str1 c) = rstrip chars s.
Proof.
  intros Hc. apply rstrip_app.
  change (rstrip chars (str1 c)) with (if has_char c chars then EmptyString else str1 c).
  by rewrite Hc.
Qed.

End RstripFacts.

Lemma init_stripped w stem base patch_only :
  TitleManager.init w (stem +:+ ".app") base patch_only
  = match glob w (search_pattern base stem) with
    | [] => ([], Raised (not_found (stem +:+ ".app") base))
    | first :: _ =>
        ([], Returned {| TitleManager.self_app_name := PyStr.rstrip ".app" stem;
                         TitleManager.base_path := base;
                         TitleManager.patch_only := patch_only;
                         TitleManager.app_path := first |})
    end.
Proof.
  unfold TitleManager.init, TitleManager.find_application, search_pattern, not_found.
  rewrite (PyStrFacts.endswith_app stem ".app").
  rewrite (RstripFacts.rstrip_app ".app" stem ".app" eq_refl).
  by destruct (glob w _).
Qed.

(** X14.  For an argument that ends in [.app], [TitleManager] does not
    cut that suffix off but strips every trailing [.], [a] and [p]: the
    name it keeps and searches for under the base path is the stem
    stripped of those characters.  That is the stem itself when the stem
    ends in another character, and less than the stem when it ends in one
    of the three.  When [glob] finds nothing for that pattern the
    constructor raises a [ValueError] that quotes the argument as it was
    given; otherwise the first match is the bundle. *)
Theorem title_manager_strips_characters (w : world) (stem base : string)
    (patch_only : bool) :
  TitleManager.init w (stem +:+ ".app") base patch_only
  = match glob w (search_pattern base stem) with
    | [] => ([], Raised (not_found (stem +:+ ".app") base))
    | first :: _ =>
        ([], Returned {| TitleManager.self_app_name := PyStr.rstrip ".app" stem;
                         TitleManager.base_path := base;
                         TitleManager.patch_only := patch_only;
                         TitleManager.app_path := first |})
    end
  ∧ (∀ s c, stem = s +:+ PyStr.str1 c → PyStr.has_char c ".app" = false →
       PyStr.rstrip ".app" stem = stem)
  ∧ (∀ s c, stem = s +:+ PyStr.str1 c → PyStr.has_char c ".app" = true →
       PyStr.rstrip ".app" stem = PyStr.rstrip ".app" s).
Proof.
  split; [apply init_stripped | split].
  - intros s c -> Hc. by apply RstripFacts.rstrip_kept.
  - intros s c -> Hc. by apply RstripFacts.rstrip_last.
Qed.

Lemma title_manager_strips_characters_witness :
  PyStr.rstrip ".app" "Rectangle" = "Rectangle"
  ∧ PyStr.rstrip ".app" "Papa" = PyStr.rstrip ".app" "Pap".
Proof.
  destruct (title_manager_strips_characters rectangle_world "Rectangle" "/Applications"
              false) as (_ & Hkept & _).
  destruct (title_manager_strips_characters rectangle_world "Papa" "/Applications"
              false) as (_ & _ & Hcut).
  split.
  - exact (Hkept "Rectangl" "e"%char eq_refl eq_refl).
  - exact (Hcut "Pap" "a"%char eq_refl eq_refl).
Defined.

(** X15.  When the application is not found the script of
    [title_manager.py] ends with that [ValueError] and a non-zero exit
    status before it has opened any file or printed anything. *)
Theorem script_fails_before_reading (w : world) :
  glob w (search_pattern "/Applications" "Rectangle") = [] →
  TitleManager.script w = ([], Raised (not_found "Rectangle.app" "/Applications"))
  ∧ exit_status (result (TitleManager.script w)) ≠ 0%Z.
Proof.
  intros Hglob.
  pose proof (init_stripped w "Rectangle" "/Applications" false) as Hinit.
  rewrite Hglob in Hinit. change ("Rectangle" +:+ ".app") with "Rectangle.app" in Hinit.
  unfold TitleManager.script. rewrite (bind_raised_l _ _ _ _ Hinit). by split.
Qed.

Lemma script_fails_before_reading_witness :
  TitleManager.script (world_without "/Applications/Rectangle")
  = ([], Raised (PyExc ValueError "Application 'Rectangle.app' not found in /Applications.")).
Proof.
  exact (proj1 (script_fails_before_reading (world_without "/Applications/Rectangle")
                  eq_refl)).
Defined.

(** ** The extension attributes of one document *)

Module KeyFacts.
Import PyStr.




End KeyFacts.



(** ** One request, two scripts *)





(** ** How runs end *)








Lemma bind_never_exits {A B} (m : prog A) (k : A → prog B) :
  (∀ msg, result m ≠ SystemExit msg) →
  (∀ x msg, result (k x) ≠ SystemExit msg) →
  ∀ msg, result (m ≫= k) ≠ SystemExit msg.
Proof.
  intros Hm Hk msg. rewrite result_bind.
  destruct (result m) as [x | msg' | e] eqn:Hr; [apply Hk | | done].
  by destruct (Hm msg').
Qed.

Lemma py_or_never_exits o (b : prog pyval) :
  (∀ msg, result b ≠ SystemExit msg) → ∀ msg, result (py_or o b) ≠ SystemExit msg.
Proof.
  intros H msg. unfold py_or. destruct o as [s |]; [| apply H].
  destruct (PyStr.truthy s); [done | apply H].
Qed.

Lemma plist_get_never_exits root key dflt msg :
  result (plist_get root key dflt) ≠ SystemExit msg.
Proof. by destruct root. Qed.

Lemma call_replace_never_exits v old new msg :
  result (call_replace v old new) ≠ SystemExit msg.
Proof. by destruct v. Qed.

Lemma timestamp_of_never_exits w p msg : result (timestamp_of w p) ≠ SystemExit msg.
Proof. unfold timestamp_of. by destruct (mtime_utc w p). Qed.

Lemma load_plist_without_failure w p :
  manifest_failure w p = None →
  ∃ root, result (Patchstarter.load_plist w p) = Returned root.
Proof.
  unfold manifest_failure. intros Hf.
  destruct (read_failure_or_content w p) as [(e0 & Hr & Hc) | (content & Hr & Hc)];
    rewrite Hr, ?Hc in Hf; [done |].
  destruct (plist_parse w content) as [v | e] eqn:Hv; [| done].
  rewrite (load_plist_parsed _ _ _ _ Hc Hv). by eexists.
Qed.

(** X19.  Extraction ends with [SystemExit] exactly when the manifest
    cannot be read or parsed, and the message is then [Error reading
    plist: ] followed by the text of that failure.  Nothing else that can
    go wrong in extraction is turned into an exit message: a manifest of
    an unexpected shape or a modification time that cannot be read ends
    it with the exception itself. *)
Theorem extraction_exits_only_on_manifest_failure (w : world)
    (a : Patchstarter.args) (msg : string) :
  result (Patchstarter.get_app_info w a) = SystemExit msg
  ↔ ∃ e, manifest_failure w (manifest_path (Patchstarter.path a)) = Some e
         ∧ msg = "Error reading plist: " +:+ exc_str e.
Proof.
  split.
  - intros H.
    destruct (manifest_failure w (manifest_path (Patchstarter.path a))) as [e |] eqn:Hf.
    + rewrite (get_app_info_sys_exit w a _ _ (load_plist_failure _ _ _ Hf)) in H.
      injection H as <-. by exists e.
    + exfalso. destruct (load_plist_without_failure _ _ Hf) as [root Hroot].
      revert H. unfold Patchstarter.get_app_info.
      change (OsPath.join (Patchstarter.path a) ["Contents"; "Info.plist"])
        with (manifest_path (Patchstarter.path a)).
      rewrite result_bind, Hroot.
      repeat first
        [ apply bind_never_exits; [| intros ? ? ]
        | apply py_or_never_exits; intros ?
        | apply plist_get_never_exits
        | apply call_replace_never_exits
        | apply timestamp_of_never_exits
        | match goal with |- result (let '(_, _) := ?x in _) ≠ _ => destruct x end
        | done ].
  - intros (e & Hf & ->).
    by rewrite (get_app_info_sys_exit w a _ _ (load_plist_failure _ _ _ Hf)).
Qed.

Lemma extraction_exits_only_on_manifest_failure_witness :
  result (Patchstarter.get_app_info rectangle_world missing_args)
  = SystemExit "Error reading plist: [Errno 2] No such file or directory: '/Applications/Missing.app/Contents/Info.plist'".
Proof.
  apply (extraction_exits_only_on_manifest_failure rectangle_world missing_args).
  exists (os_error 2 "No such file or directory"
            (Some "/Applications/Missing.app/Contents/Info.plist")).
  split; reflexivity.
Defined.
